(** * provider-aws: SNS subscription client, API Gateway v2 hooks and
      conversions, EKS node group controller

    A shallow embedding of the Go sources

      - pkg/clients/sns/snssubscription.go
      - pkg/controller/apigatewayv2/authorizer (hooks)
      - pkg/controller/apigatewayv2/apimapping/zz_conversions.go
      - pkg/controller/eks/nodegroup (as exercised by controller_test.go)

    Conventions.  A Go [*string] is an [option string] ([None] is the nil
    pointer); a Go [map[string]string] is a [gmap string string], read with
    [map_index], which yields the empty string for an absent key (as indexing
    a Go map does, also for the nil map); a Go [error] interface value is an
    [option error] ([None] is nil).  Functions that mutate a struct through a
    pointer return the struct after the call. *)

From stdpp Require Import gmap strings list fin_maps.

Local Open Scope string_scope.

(** ** Go and AWS SDK primitives *)

Module Go.

(** [m[k]] on a [map[string]string]: the zero value for a missing key. *)
Definition map_index (m : gmap string string) (k : string) : string :=
  default "" (m !! k).

(** [aws.StringValue]: the pointee, or the empty string for nil. *)
Definition StringValue (p : option string) : string :=
  match p with
  | Some s => s
  | None => ""
  end.

(** [aws.String]: a pointer to a fresh copy of the value; never nil. *)
Definition aws_String (s : string) : option string := Some s.

(** [aws.Bool]. *)
Definition aws_Bool (b : bool) : option bool := Some b.

(** [strconv.ParseBool]: [None] stands for the syntax error. *)
Definition ParseBool (str : string) : option bool :=
  if existsb (String.eqb str) ["1"; "t"; "T"; "true"; "TRUE"; "True"]
  then Some true
  else if existsb (String.eqb str) ["0"; "f"; "F"; "false"; "FALSE"; "False"]
  then Some false
  else None.

(** Dynamic values behind the [error] interface.  [AwsErr] covers the
    types that implement [awserr.Error] (they carry a code and a
    message); [ErrorString] is what [errors.New] builds; [WithMessage] is
    what [errors.Wrap] builds around a cause. *)
Inductive error : Type :=
| AwsErr (code message : string)
| ErrorString (msg : string)
| WithMessage (cause : error) (msg : string).

(** The type assertion [err.(awserr.Error)]: the value when its dynamic
    type implements the interface, [None] for [ok = false] (which is also
    what nil gives). *)
Definition assert_awserr (err : option error) : option error :=
  match err with
  | Some (AwsErr c m) => Some (AwsErr c m)
  | _ => None
  end.

(** [awserr.Error.Code()]. *)
Definition Code (e : error) : string :=
  match e with
  | AwsErr c _ => c
  | _ => ""
  end.

(** [err.Error()]. *)
Fixpoint Error (e : error) : string :=
  match e with
  | AwsErr c m => c ++ ": " ++ m
  | ErrorString m => m
  | WithMessage cause m => m ++ ": " ++ Error cause
  end.

(** [errors.Wrap] of github.com/pkg/errors: nil stays nil. *)
Definition Wrap (err : option error) (message : string) : option error :=
  match err with
  | None => None
  | Some e => Some (WithMessage e message)
  end.

End Go.

(** ** pkg/clients/sns/snssubscription.go *)

Module SNS.
Import Go.

Definition SubscriptionDeliveryPolicy := "DeliveryPolicy".
Definition SubscriptionFilterPolicy := "FilterPolicy".
Definition SubscriptionRawMessageDelivery := "RawMessageDelivery".
Definition SubscriptionRedrivePolicy := "RedrivePolicy".
Definition SubscriptionOwner := "Owner".
Definition SubscriptionPendingConfirmation := "PendingConfirmation".
Definition SubscriptionConfirmationWasAuthenticated := "ConfirmationWasAuthenticated".

(** [v1alpha1.SNSSubscriptionParameters], with the fields this file reads
    or writes. *)
Record SNSSubscriptionParameters : Type := {
  TopicARN : string;
  Protocol : string;
  Endpoint : string;
  DeliveryPolicy : option string;
  FilterPolicy : option string;
  RawMessageDelivery : option string;
  RedrivePolicy : option string
}.

(** [v1alpha1.ConfirmationStatus] is a string type; its zero value is
    the empty string. *)
Definition ConfirmationStatus := string.

(** [v1alpha1.SNSSubscriptionObservation]. *)
Record SNSSubscriptionObservation : Type := {
  Owner : option string;
  Status : option ConfirmationStatus;
  ConfirmationWasAuthenticated : option bool
}.

(** [sns.SubscribeInput]. *)
Record SubscribeInput : Type := {
  si_Endpoint : option string;
  si_Protocol : option string;
  si_TopicArn : option string;
  si_ReturnSubscriptionArn : option bool
}.

Definition GenerateSubscribeInput (p : SNSSubscriptionParameters) : SubscribeInput :=
  {| si_Endpoint := aws_String (Endpoint p);
     si_Protocol := aws_String (Protocol p);
     si_TopicArn := aws_String (TopicARN p);
     si_ReturnSubscriptionArn := aws_Bool true |}.

Definition getSubAttributes (p : SNSSubscriptionParameters) : gmap string string :=
  <[SubscriptionDeliveryPolicy := StringValue (DeliveryPolicy p)]>
  (<[SubscriptionFilterPolicy := StringValue (FilterPolicy p)]>
  (<[SubscriptionRawMessageDelivery := StringValue (RawMessageDelivery p)]>
  (<[SubscriptionRedrivePolicy := StringValue (RedrivePolicy p)]> ∅))).

(** The body of the [range] loop of [GetChangedSubAttributes]. *)
Definition changed_step (attrs : gmap string string)
    (k v : string) (changedAttrs : gmap string string) : gmap string string :=
  if String.eqb v (map_index attrs k) then changedAttrs
  else <[k := v]> changedAttrs.

(** [for k, v := range subAttrs { ... }] starting from [make(map...)].
    Go leaves the order of the iteration open; the loop writes each key at
    most once, so every order builds the same map (see
    [GetChangedSubAttributes_any_order]). *)
Definition GetChangedSubAttributes (p : SNSSubscriptionParameters)
    (attrs : gmap string string) : gmap string string :=
  map_fold (changed_step attrs) ∅ (getSubAttributes p).

Definition IsSNSSubscriptionAttributesUpToDate (p : SNSSubscriptionParameters)
    (subAttributes : gmap string string) : bool :=
  String.eqb (StringValue (DeliveryPolicy p)) (map_index subAttributes SubscriptionDeliveryPolicy) &&
  String.eqb (StringValue (FilterPolicy p)) (map_index subAttributes SubscriptionFilterPolicy) &&
  String.eqb (StringValue (RawMessageDelivery p)) (map_index subAttributes SubscriptionRawMessageDelivery) &&
  String.eqb (StringValue (RedrivePolicy p)) (map_index subAttributes SubscriptionRedrivePolicy).

Section Constants.
(** Constants of packages outside this repository's sources: the SNS
    SDK's [ErrCodeNotFoundException] and the two named values of
    [v1alpha1.ConfirmationStatus]. *)
Variable ErrCodeNotFoundException : string.
Variables ConfirmationPending ConfirmationSuccessful : ConfirmationStatus.

Definition GenerateSubscriptionObservation (attr : gmap string string)
    : SNSSubscriptionObservation :=
  let o_Owner := aws_String (map_index attr SubscriptionOwner) in
  let status : ConfirmationStatus :=
    match ParseBool (map_index attr SubscriptionPendingConfirmation) with
    | Some s => if s then ConfirmationPending else ConfirmationSuccessful
    | None => ""
    end in
  let o_Status := Some status in
  let o_Auth :=
    match ParseBool (map_index attr SubscriptionConfirmationWasAuthenticated) with
    | Some s => aws_Bool s
    | None => None
    end in
  {| Owner := o_Owner; Status := o_Status; ConfirmationWasAuthenticated := o_Auth |}.

Definition IsSubscriptionNotFound (err : option error) : bool :=
  match assert_awserr err with
  | Some subErr => String.eqb (Code subErr) ErrCodeNotFoundException
  | None => false
  end.

End Constants.

(** Field updates [in.F = v] on the parameters. *)
Definition set_DeliveryPolicy (v : option string) (p : SNSSubscriptionParameters) :=
  {| TopicARN := TopicARN p; Protocol := Protocol p; Endpoint := Endpoint p;
     DeliveryPolicy := v; FilterPolicy := FilterPolicy p;
     RawMessageDelivery := RawMessageDelivery p; RedrivePolicy := RedrivePolicy p |}.

Definition set_FilterPolicy (v : option string) (p : SNSSubscriptionParameters) :=
  {| TopicARN := TopicARN p; Protocol := Protocol p; Endpoint := Endpoint p;
     DeliveryPolicy := DeliveryPolicy p; FilterPolicy := v;
     RawMessageDelivery := RawMessageDelivery p; RedrivePolicy := RedrivePolicy p |}.

Definition set_RawMessageDelivery (v : option string) (p : SNSSubscriptionParameters) :=
  {| TopicARN := TopicARN p; Protocol := Protocol p; Endpoint := Endpoint p;
     DeliveryPolicy := DeliveryPolicy p; FilterPolicy := FilterPolicy p;
     RawMessageDelivery := v; RedrivePolicy := RedrivePolicy p |}.

Definition set_RedrivePolicy (v : option string) (p : SNSSubscriptionParameters) :=
  {| TopicARN := TopicARN p; Protocol := Protocol p; Endpoint := Endpoint p;
     DeliveryPolicy := DeliveryPolicy p; FilterPolicy := FilterPolicy p;
     RawMessageDelivery := RawMessageDelivery p; RedrivePolicy := v |}.

(** Modelled from the spec: [awsclients.LateInitializeStringPtr] of
    pkg/clients, whose source is missing.  Late initialization populates a
    field from the observed value when the user left it unset: the result
    is the field itself when it is non-nil and the observed value
    otherwise. *)
Definition LateInitializeStringPtr (in_ from : option string) : option string :=
  match in_ with
  | Some s => Some s
  | None => from
  end.

Section Helpers.
(** [awsclients.String] of pkg/clients is missing as well; the function
    below is stated for any conversion of a string to a [*string]. *)
Variable awsclients_String : string -> option string.

(** The four assignments of [LateInitializeSubscription], in order; the
    result is [*in] after the call. *)
Definition LateInitializeSubscription (in_ : SNSSubscriptionParameters)
    (subAttributes : gmap string string) : SNSSubscriptionParameters :=
  let in_ := set_DeliveryPolicy
    (LateInitializeStringPtr (DeliveryPolicy in_)
       (awsclients_String (map_index subAttributes SubscriptionDeliveryPolicy))) in_ in
  let in_ := set_FilterPolicy
    (LateInitializeStringPtr (FilterPolicy in_)
       (awsclients_String (map_index subAttributes SubscriptionFilterPolicy))) in_ in
  let in_ := set_RawMessageDelivery
    (LateInitializeStringPtr (RawMessageDelivery in_)
       (awsclients_String (map_index subAttributes SubscriptionRawMessageDelivery))) in_ in
  set_RedrivePolicy
    (LateInitializeStringPtr (RedrivePolicy in_)
       (awsclients_String (map_index subAttributes SubscriptionRedrivePolicy))) in_.

End Helpers.

End SNS.

(** ** crossplane-runtime: conditions, observations, external names *)

Module Runtime.
Import Go.

(** [metav1.Time], as a count of clock ticks. *)
Definition Time := Z.

(** [v1alpha1.Condition]; [ConditionType], [corev1.ConditionStatus] and
    [ConditionReason] are string types. *)
Record Condition : Type := {
  Type_ : string;
  Status : string;
  LastTransitionTime : Time;
  Reason : string;
  Message : string
}.

Definition TypeReady := "Ready".
Definition ConditionTrue := "True".
Definition ConditionFalse := "False".
Definition ReasonAvailable := "Available".
Definition ReasonUnavailable := "Unavailable".
Definition ReasonCreating := "Creating".
Definition ReasonDeleting := "Deleting".

(** The condition constructors read the clock ([metav1.Now()]); the reading
    is the argument [now]. *)
Definition Available (now : Time) : Condition :=
  {| Type_ := TypeReady; Status := ConditionTrue; LastTransitionTime := now;
     Reason := ReasonAvailable; Message := "" |}.

Definition Unavailable (now : Time) : Condition :=
  {| Type_ := TypeReady; Status := ConditionFalse; LastTransitionTime := now;
     Reason := ReasonUnavailable; Message := "" |}.

Definition Creating (now : Time) : Condition :=
  {| Type_ := TypeReady; Status := ConditionFalse; LastTransitionTime := now;
     Reason := ReasonCreating; Message := "" |}.

Definition Deleting (now : Time) : Condition :=
  {| Type_ := TypeReady; Status := ConditionFalse; LastTransitionTime := now;
     Reason := ReasonDeleting; Message := "" |}.

(** [Condition.Equal]: every field but the transition time. *)
Definition Equal (c other : Condition) : bool :=
  String.eqb (Type_ c) (Type_ other) && String.eqb (Status c) (Status other) &&
  String.eqb (Reason c) (Reason other) && String.eqb (Message c) (Message other).

(** One round of the outer loop of [ConditionedStatus.SetConditions]: an
    existing condition of the same type is kept when it is [Equal] to the
    new one and overwritten in place otherwise; the new condition is
    appended when no condition of its type exists. *)
Definition SetCondition (conditions : list Condition) (new : Condition) : list Condition :=
  let updated :=
    map (fun existing =>
           if negb (String.eqb (Type_ existing) (Type_ new)) then existing
           else if Equal existing new then existing
           else new) conditions in
  if existsb (fun existing => String.eqb (Type_ existing) (Type_ new)) conditions
  then updated
  else updated ++ [new].

Definition SetConditions (conditions : list Condition) (c : list Condition) : list Condition :=
  fold_left SetCondition c conditions.

(** [managed.ExternalObservation]. *)
Record ExternalObservation : Type := {
  ResourceExists : bool;
  ResourceUpToDate : bool;
  ConnectionDetails : gmap string string
}.

(** The zero value [managed.ExternalObservation{}]. *)
Definition ExternalObservation_zero : ExternalObservation :=
  {| ResourceExists := false; ResourceUpToDate := false; ConnectionDetails := ∅ |}.

Definition AnnotationKeyExternalName := "crossplane.io/external-name".

(** [meta.GetExternalName], on the object's annotations. *)
Definition GetExternalName (annotations : gmap string string) : string :=
  map_index annotations AnnotationKeyExternalName.

End Runtime.

(** ** pkg/controller/apigatewayv2/authorizer: the hooks *)

Module Authorizer.
Import Go Runtime.

(** [svcapitypes.Authorizer], the custom resource: its annotations, the
    fields of [Spec.ForProvider] and [Status.AtProvider] the hooks read,
    and the conditions of its status. *)
Record Authorizer : Type := {
  Annotations : gmap string string;
  APIID : option string;
  AuthorizerID : option string;
  Conditions : list Condition
}.

(** [cr.SetConditions(c...)]. *)
Definition cr_SetConditions (cr : Authorizer) (c : list Condition) : Authorizer :=
  {| Annotations := Annotations cr; APIID := APIID cr; AuthorizerID := AuthorizerID cr;
     Conditions := SetConditions (Conditions cr) c |}.

(** [svcsdk.Authorizer], an item of the SDK's listing.  The listing holds
    pointers to such objects; [filterList] only reads through them and
    copies the pointers, so an element stands for the object it points
    to. *)
Record SdkAuthorizer : Type := {
  AuthorizerId : option string;
  AuthorizerType : option string;
  AuthorizerUri : option string;
  Name : option string
}.

(** [svcsdk.GetAuthorizersOutput]. *)
Record GetAuthorizersOutput : Type := {
  Items : list SdkAuthorizer;
  NextToken : option string
}.

Definition preObserve (cr : Authorizer) : option error := None.

(** [postObserve]; the first component is [*cr] after the call. *)
Definition postObserve (now : Time) (cr : Authorizer) (obs : ExternalObservation)
    (err : option error) : Authorizer * ExternalObservation * option error :=
  match err with
  | Some e => (cr, ExternalObservation_zero, Some e)
  | None => (cr_SetConditions cr [Available now], obs, None)
  end.

(** Addresses of [GetAuthorizersOutput] objects, and the store holding
    them.  [filterList] receives its list by pointer and returns a pointer
    to a freshly allocated output. *)
Definition loc := positive.
Abbreviation store := (gmap loc GetAuthorizersOutput).

(** [res.Items = append(res.Items, authorizer)] on the object at [res]. *)
Definition append_item (authorizer : SdkAuthorizer) (out : GetAuthorizersOutput)
    : GetAuthorizersOutput :=
  {| Items := Items out ++ [authorizer]; NextToken := NextToken out |}.

(** The body of the loop of [filterList]. *)
Definition filterList_step (cr : Authorizer) (res : loc) (σ : store)
    (authorizer : SdkAuthorizer) : store :=
  if String.eqb (GetExternalName (Annotations cr)) (StringValue (Name authorizer))
  then alter (append_item authorizer) res σ
  else σ.

(** [filterList]: [None] is the nil dereference at [list.Items]. *)
Definition filterList (σ : store) (cr : Authorizer) (list : loc) : option (store * loc) :=
  match σ !! list with
  | None => None
  | Some l =>
      let res := fresh (dom σ) in
      let σ := <[res := {| Items := []; NextToken := None |}]> σ in
      Some (fold_left (filterList_step cr res) (Items l) σ, res)
  end.

Definition postCreate {A} (cre : A) (err : option error) : A * option error := (cre, err).
Definition postUpdate {A} (upd : A) (err : option error) : A * option error := (upd, err).

(** The request structs of the SDK the hooks fill in, with the fields the
    hooks write and one they leave alone. *)
Record GetAuthorizersInput : Type := {
  gai_ApiId : option string;
  gai_NextToken : option string
}.

Record CreateAuthorizerInput : Type := {
  cai_ApiId : option string;
  cai_Name : option string;
  cai_AuthorizerType : option string
}.

Record DeleteAuthorizerInput : Type := {
  dai_ApiId : option string;
  dai_AuthorizerId : option string
}.

Definition preCreate (cr : Authorizer) : option error := None.
Definition preUpdate (cr : Authorizer) : option error := None.

Definition preGenerateGetAuthorizersInput (cr : Authorizer) (obj : GetAuthorizersInput)
    : GetAuthorizersInput := obj.

Definition postGenerateGetAuthorizersInput (cr : Authorizer) (obj : GetAuthorizersInput)
    : GetAuthorizersInput :=
  {| gai_ApiId := APIID cr; gai_NextToken := gai_NextToken obj |}.

Definition preGenerateCreateAuthorizerInput (cr : Authorizer) (obj : CreateAuthorizerInput)
    : CreateAuthorizerInput := obj.


Definition preGenerateDeleteAuthorizerInput (cr : Authorizer) (obj : DeleteAuthorizerInput)
    : DeleteAuthorizerInput := obj.

Definition postGenerateDeleteAuthorizerInput (cr : Authorizer) (obj : DeleteAuthorizerInput)
    : DeleteAuthorizerInput :=
  let obj := {| dai_ApiId := APIID cr; dai_AuthorizerId := dai_AuthorizerId obj |} in
  {| dai_ApiId := dai_ApiId obj; dai_AuthorizerId := AuthorizerID cr |}.

End Authorizer.

(** ** pkg/controller/apigatewayv2/apimapping/zz_conversions.go *)

Module APIMapping.
Import Go.

(** [svcsdk.ApiMapping]. *)
Record ApiMapping : Type := {
  ApiId : option string;
  ApiMappingId : option string;
  ApiMappingKey : option string;
  Stage : option string
}.

(** [svcsdk.GetApiMappingsOutput]. *)
Record GetApiMappingsOutput : Type := {
  Items : list ApiMapping;
  NextToken : option string
}.

(** [svcapitypes.APIMapping], with the fields the conversions touch:
    [Spec.ForProvider.APIMappingKey] and the three of [Status.AtProvider]. *)
Record APIMappingParameters : Type := { APIMappingKey : option string }.

Record APIMappingObservation : Type := {
  APIID : option string;
  APIMappingID : option string;
  AtProvider_Stage : option string
}.

Record APIMapping : Type := {
  ForProvider : APIMappingParameters;
  AtProvider : APIMappingObservation
}.

(** The zero value [&svcapitypes.APIMapping{}]. *)
Definition APIMapping_zero : APIMapping :=
  {| ForProvider := {| APIMappingKey := None |};
     AtProvider := {| APIID := None; APIMappingID := None; AtProvider_Stage := None |} |}.

Definition set_APIID (v : option string) (cr : APIMapping) : APIMapping :=
  {| ForProvider := ForProvider cr;
     AtProvider := {| APIID := v; APIMappingID := APIMappingID (AtProvider cr);
                      AtProvider_Stage := AtProvider_Stage (AtProvider cr) |} |}.

Definition set_APIMappingID (v : option string) (cr : APIMapping) : APIMapping :=
  {| ForProvider := ForProvider cr;
     AtProvider := {| APIID := APIID (AtProvider cr); APIMappingID := v;
                      AtProvider_Stage := AtProvider_Stage (AtProvider cr) |} |}.

Definition set_APIMappingKey (v : option string) (cr : APIMapping) : APIMapping :=
  {| ForProvider := {| APIMappingKey := v |}; AtProvider := AtProvider cr |}.

Definition set_Stage (v : option string) (cr : APIMapping) : APIMapping :=
  {| ForProvider := ForProvider cr;
     AtProvider := {| APIID := APIID (AtProvider cr);
                      APIMappingID := APIMappingID (AtProvider cr);
                      AtProvider_Stage := v |} |}.

(** The body of the loop of [GenerateAPIMapping], up to its [break]. *)
Definition GenerateAPIMapping_body (elem : ApiMapping) (cr : APIMapping) : APIMapping :=
  let cr := if ApiId elem is Some _ then set_APIID (ApiId elem) cr else cr in
  let cr := if ApiMappingId elem is Some _ then set_APIMappingID (ApiMappingId elem) cr else cr in
  let cr := if ApiMappingKey elem is Some _ then set_APIMappingKey (ApiMappingKey elem) cr else cr in
  let cr := if Stage elem is Some _ then set_Stage (Stage elem) cr else cr in
  cr.

(** The loop runs its body on the first element and breaks; [found] tells
    whether it ran. *)
Definition GenerateAPIMapping (resp : GetApiMappingsOutput) : APIMapping :=
  let cr := APIMapping_zero in
  let '(cr, found) :=
    match Items resp with
    | [] => (cr, false)
    | elem :: _ => (GenerateAPIMapping_body elem cr, true)
    end in
  if negb found then cr else cr.

Definition IsNotFound (err : option error) : bool :=
  match assert_awserr err with
  | Some awsErr => String.eqb (Code awsErr) "NotFoundException"
  | None => false
  end.

(** [svcsdk.CreateApiMappingInput] and [svcsdk.DeleteApiMappingInput]. *)
Record CreateApiMappingInput : Type := {
  cmi_ApiId : option string;
  cmi_ApiMappingKey : option string;
  cmi_DomainName : option string;
  cmi_Stage : option string
}.

Record DeleteApiMappingInput : Type := {
  dmi_ApiMappingId : option string;
  dmi_DomainName : option string
}.

Definition CreateApiMappingInput_zero : CreateApiMappingInput :=
  {| cmi_ApiId := None; cmi_ApiMappingKey := None; cmi_DomainName := None;
     cmi_Stage := None |}.

Definition DeleteApiMappingInput_zero : DeleteApiMappingInput :=
  {| dmi_ApiMappingId := None; dmi_DomainName := None |}.

(** [res.SetApiMappingKey(v)]: the field points at a copy of [v]. *)
Definition SetApiMappingKey (v : string) (res : CreateApiMappingInput)
    : CreateApiMappingInput :=
  {| cmi_ApiId := cmi_ApiId res; cmi_ApiMappingKey := Some v;
     cmi_DomainName := cmi_DomainName res; cmi_Stage := cmi_Stage res |}.

(** [res.SetApiMappingId(v)]. *)
Definition SetApiMappingId (v : string) (res : DeleteApiMappingInput)
    : DeleteApiMappingInput :=
  {| dmi_ApiMappingId := Some v; dmi_DomainName := dmi_DomainName res |}.

Section Hooks.
(** The hooks the generated conversions call live in another file of the
    package; the conversions are stated over any hooks. *)
Variable preGenerateCreateApiMappingInput postGenerateCreateApiMappingInput :
  APIMapping -> CreateApiMappingInput -> CreateApiMappingInput.
Variable preGenerateDeleteApiMappingInput postGenerateDeleteApiMappingInput :
  APIMapping -> DeleteApiMappingInput -> DeleteApiMappingInput.

Definition GenerateCreateApiMappingInput (cr : APIMapping) : CreateApiMappingInput :=
  let res := preGenerateCreateApiMappingInput cr CreateApiMappingInput_zero in
  let res :=
    match APIMappingKey (ForProvider cr) with
    | Some v => SetApiMappingKey v res
    | None => res
    end in
  postGenerateCreateApiMappingInput cr res.

Definition GenerateDeleteApiMappingInput (cr : APIMapping) : DeleteApiMappingInput :=
  let res := preGenerateDeleteApiMappingInput cr DeleteApiMappingInput_zero in
  let res :=
    match APIMappingID (AtProvider cr) with
    | Some v => SetApiMappingId v res
    | None => res
    end in
  postGenerateDeleteApiMappingInput cr res.

End Hooks.

End APIMapping.

(** ** pkg/controller/eks/nodegroup: the external client

    controller_test.go is the only file of this package at hand; the
    operations it drives are written down here from the specification's
    error-handling design and from the outcomes the test tables expect. *)

Module NodeGroup.
Import Go Runtime.

(** [v1alpha1.NodeGroupStatusType] is a string type. *)
Definition NodeGroupStatusType := string.

(** [v1alpha1.NodeGroup] as the tests build and compare it: the provider
    reference and the [ForProvider] fields its modifiers set, the observed
    status and the conditions. *)
Record NodeGroupParameters : Type := {
  Tags : gmap string string;
  Version : option string;
  DesiredSize : option Z
}.

Record NodeGroup : Type := {
  ProviderReference : string;
  ForProvider : NodeGroupParameters;
  AtProviderStatus : NodeGroupStatusType;
  Conditions : list Condition
}.

(** [nodeGroup()] of the tests. *)
Definition nodeGroup : NodeGroup :=
  {| ProviderReference := "aws-creds";
     ForProvider := {| Tags := ∅; Version := None; DesiredSize := None |};
     AtProviderStatus := "";
     Conditions := [] |}.

Definition withConditions (c : list Condition) (r : NodeGroup) : NodeGroup :=
  {| ProviderReference := ProviderReference r; ForProvider := ForProvider r;
     AtProviderStatus := AtProviderStatus r; Conditions := c |}.

Definition withStatus (s : NodeGroupStatusType) (r : NodeGroup) : NodeGroup :=
  {| ProviderReference := ProviderReference r; ForProvider := ForProvider r;
     AtProviderStatus := s; Conditions := Conditions r |}.

(** [cr.SetConditions(c...)]. *)
Definition cr_SetConditions (cr : NodeGroup) (c : list Condition) : NodeGroup :=
  withConditions (SetConditions (Conditions cr) c) cr.

(** [awseks.DescribeNodegroupOutput], with what the tests fill in. *)
Record DescribeNodegroupOutput : Type := {
  ng_Status : NodeGroupStatusType;
  ng_Version : option string
}.

(** The fake client of the tests: each mocked request answers with an
    error or with data, whatever its input. *)
Record MockClient : Type := {
  MockDescribeNodegroupRequest : error + DescribeNodegroupOutput;
  MockCreateNodegroupRequest : option error;
  MockDeleteNodegroupRequest : option error
}.

(** Modelled from the spec: [errDescribeFailed], the static string the
    describe call's error is wrapped with; its declaration is missing and
    the spec quotes it. *)
Definition errDescribeFailed := "failed to describe node group".

Section External.
(** What the missing sources declare and these operations use: the
    recognizer of the not-found error code ([eks.IsErrorNotFound]), the two
    other error strings, the two status values the operations test for, and
    what [Observe] does with a node group that exists. *)
Variable IsErrorNotFound : error -> bool.
Variables errCreateFailed errDeleteFailed : string.
Variables NodeGroupStatusCreating NodeGroupStatusDeleting : NodeGroupStatusType.
Variable observeExisting :
  NodeGroup -> DescribeNodegroupOutput -> NodeGroup * ExternalObservation * option error.

(** Modelled from the spec: [Observe] of the node group controller, whose
    source is missing.  The describe call comes first; when it fails with
    the recognized not-found code the resource is reported absent with no
    error, and any other failure is returned wrapped with
    [errDescribeFailed]; the custom resource is not touched on either
    path. *)
Definition Observe (client : MockClient) (cr : NodeGroup)
    : NodeGroup * ExternalObservation * option error :=
  match MockDescribeNodegroupRequest client with
  | inl err =>
      if IsErrorNotFound err
      then (cr, ExternalObservation_zero, None)
      else (cr, ExternalObservation_zero, Wrap (Some err) errDescribeFailed)
  | inr rsp => observeExisting cr rsp
  end.

(** Modelled from the spec: [Create] of the node group controller, whose
    source is missing.  It sets the Creating condition, makes no call when
    the node group is already being created, and returns the create call's
    error wrapped with [errCreateFailed]. *)
Definition Create (now : Time) (client : MockClient) (cr : NodeGroup)
    : NodeGroup * option error :=
  let cr := cr_SetConditions cr [Creating now] in
  if String.eqb (AtProviderStatus cr) NodeGroupStatusCreating then (cr, None)
  else (cr, Wrap (MockCreateNodegroupRequest client) errCreateFailed).

(** Modelled from the spec: [Delete] of the node group controller, whose
    source is missing.  It sets the Deleting condition, makes no call when
    the node group is already being deleted, treats the recognized
    not-found code as success and returns any other error of the delete
    call wrapped with [errDeleteFailed]. *)
Definition Delete (now : Time) (client : MockClient) (cr : NodeGroup)
    : NodeGroup * option error :=
  let cr := cr_SetConditions cr [Deleting now] in
  if String.eqb (AtProviderStatus cr) NodeGroupStatusDeleting then (cr, None)
  else
    match MockDeleteNodegroupRequest client with
    | None => (cr, None)
    | Some err =>
        if IsErrorNotFound err then (cr, None)
        else (cr, Wrap (Some err) errDeleteFailed)
    end.

End External.

(** The tests signal not-found with [errors.New] of the code itself, so a
    recognizer that passes them reads the code off the error's text. *)
Definition ErrCodeResourceNotFoundException := "ResourceNotFoundException".

Definition textIsNotFound (err : error) : bool :=
  String.eqb (Error err) ErrCodeResourceNotFoundException.

Definition errBoom : error := ErrorString "boom".

(** The modifiers of controller_test.go that write [Spec.ForProvider]. *)
Definition withVersion (v : option string) (r : NodeGroup) : NodeGroup :=
  {| ProviderReference := ProviderReference r;
     ForProvider := {| Tags := Tags (ForProvider r); Version := v;
                       DesiredSize := DesiredSize (ForProvider r) |};
     AtProviderStatus := AtProviderStatus r; Conditions := Conditions r |}.

(** The inner loop of [withTags]: [for k, v := range tagMap { tags[k] = v }]. *)
Definition copy_tags (tags tagMap : gmap string string) : gmap string string :=
  map_fold (λ k v tags, <[k := v]> tags) tags tagMap.

(** [withTags]: the maps are copied, in the order given, into one fresh
    map, which becomes the [Tags] of the node group. *)
Definition withTags (tagMaps : list (gmap string string)) (r : NodeGroup) : NodeGroup :=
  let tags := fold_left copy_tags tagMaps ∅ in
  {| ProviderReference := ProviderReference r;
     ForProvider := {| Tags := tags; Version := Version (ForProvider r);
                       DesiredSize := DesiredSize (ForProvider r) |};
     AtProviderStatus := AtProviderStatus r; Conditions := Conditions r |}.

(** [nodeGroup(m...)]: the modifiers run in order on the base object. *)
Definition nodeGroup_of (m : list (NodeGroup → NodeGroup)) : NodeGroup :=
  fold_left (λ cr f, f cr) m nodeGroup.

End NodeGroup.

(** ** Vocabulary of the statements and sample data *)

Section Vocabulary.
Import Go SNS.

(** The four attribute names the diff ranges over. *)
Definition subscription_attribute_keys : list string :=
  [SubscriptionDeliveryPolicy; SubscriptionFilterPolicy;
   SubscriptionRawMessageDelivery; SubscriptionRedrivePolicy].

(** The desired value of an attribute: the spec field, nil read as the
    empty string. *)
Definition desired_value (p : SNSSubscriptionParameters) (k : string) : string :=
  if String.eqb k SubscriptionDeliveryPolicy then StringValue (DeliveryPolicy p)
  else if String.eqb k SubscriptionFilterPolicy then StringValue (FilterPolicy p)
  else if String.eqb k SubscriptionRawMessageDelivery then StringValue (RawMessageDelivery p)
  else if String.eqb k SubscriptionRedrivePolicy then StringValue (RedrivePolicy p)
  else "".

(** The spec field behind an attribute name. *)
Definition spec_field (p : SNSSubscriptionParameters) (k : string) : option string :=
  if String.eqb k SubscriptionDeliveryPolicy then DeliveryPolicy p
  else if String.eqb k SubscriptionFilterPolicy then FilterPolicy p
  else if String.eqb k SubscriptionRawMessageDelivery then RawMessageDelivery p
  else if String.eqb k SubscriptionRedrivePolicy then RedrivePolicy p
  else None.

(** The spellings [strconv.ParseBool] reads as true and as false. *)
Definition true_spellings : list string := ["1"; "t"; "T"; "true"; "TRUE"; "True"].
Definition false_spellings : list string := ["0"; "f"; "F"; "false"; "FALSE"; "False"].

(** The value the last of the maps that bind [k] gives it. *)
Definition last_binding (tagMaps : list (gmap string string)) (k : string) : option string :=
  fold_left (λ found tagMap, match tagMap !! k with Some v => Some v | None => found end)
            tagMaps None.

End Vocabulary.

Section Samples.
Import Go Runtime.

Definition params_example : SNS.SNSSubscriptionParameters :=
  {| SNS.TopicARN := "arn:aws:sns:us-east-1:1:topic"; SNS.Protocol := "https";
     SNS.Endpoint := "https://example.org/hook";
     SNS.DeliveryPolicy := Some "{}"; SNS.FilterPolicy := None;
     SNS.RawMessageDelivery := Some "true"; SNS.RedrivePolicy := None |}.

Definition attrs_example : gmap string string :=
  <["DeliveryPolicy" := "{}"]>
  (<["RawMessageDelivery" := "false"]>
  (<["Owner" := "123456789012"]>
  (<["PendingConfirmation" := "false"]>
  (<["RedrivePolicy" := "{r}"]> ∅)))).

Definition authorizer_example : Authorizer.Authorizer :=
  {| Authorizer.Annotations := <["crossplane.io/external-name" := "jwt"]> ∅;
     Authorizer.APIID := Some "api-1"; Authorizer.AuthorizerID := None;
     Authorizer.Conditions := [Creating 1%Z] |}.

Definition item_example (id : string) (name : option string) : Authorizer.SdkAuthorizer :=
  {| Authorizer.AuthorizerId := Some id; Authorizer.AuthorizerType := Some "JWT";
     Authorizer.AuthorizerUri := None; Authorizer.Name := name |}.

Definition listing_example : Authorizer.GetAuthorizersOutput :=
  {| Authorizer.Items :=
       [item_example "a" (Some "jwt"); item_example "b" None;
        item_example "c" (Some "other"); item_example "d" (Some "jwt")];
     Authorizer.NextToken := Some "more" |}.

Definition store_example : Authorizer.store := <[5%positive := listing_example]> ∅.

(** The parameters of [params_example] with another topic and the nil
    filter policy replaced by a pointer to the empty string. *)
Definition params_example' : SNS.SNSSubscriptionParameters :=
  {| SNS.TopicARN := "arn:aws:sns:us-east-1:1:other"; SNS.Protocol := "sqs";
     SNS.Endpoint := "arn:aws:sqs:us-east-1:1:queue";
     SNS.DeliveryPolicy := Some "{}"; SNS.FilterPolicy := Some "";
     SNS.RawMessageDelivery := Some "true"; SNS.RedrivePolicy := None |}.

(** The attributes of [attrs_example] without the owner and with an empty
    filter policy written out. *)
Definition attrs_example' : gmap string string :=
  <["FilterPolicy" := ""]> (delete "Owner" attrs_example).

(** A conversion that gives nil for the empty string and a pointer to the
    string otherwise. *)
Definition awsclients_String_example (v : string) : option string :=
  if String.eqb v "" then None else Some v.

Definition authorizer_unnamed_example : Authorizer.Authorizer :=
  {| Authorizer.Annotations := ∅;
     Authorizer.APIID := Some "api-1"; Authorizer.AuthorizerID := None;
     Authorizer.Conditions := [] |}.


(** Hooks of the kind the Authorizer package has: the pre hooks return the
    request as it is, the post hooks fill in fields of their own. *)
Definition preCreate_example (cr : APIMapping.APIMapping)
    (obj : APIMapping.CreateApiMappingInput) : APIMapping.CreateApiMappingInput := obj.

Definition postCreate_example (cr : APIMapping.APIMapping)
    (obj : APIMapping.CreateApiMappingInput) : APIMapping.CreateApiMappingInput :=
  {| APIMapping.cmi_ApiId := APIMapping.APIID (APIMapping.AtProvider cr);
     APIMapping.cmi_ApiMappingKey := APIMapping.cmi_ApiMappingKey obj;
     APIMapping.cmi_DomainName := Some "example.org";
     APIMapping.cmi_Stage := APIMapping.AtProvider_Stage (APIMapping.AtProvider cr) |}.

Definition preDelete_example (cr : APIMapping.APIMapping)
    (obj : APIMapping.DeleteApiMappingInput) : APIMapping.DeleteApiMappingInput := obj.

Definition postDelete_example (cr : APIMapping.APIMapping)
    (obj : APIMapping.DeleteApiMappingInput) : APIMapping.DeleteApiMappingInput :=
  {| APIMapping.dmi_ApiMappingId := APIMapping.dmi_ApiMappingId obj;
     APIMapping.dmi_DomainName := Some "example.org" |}.

Definition mapping_example : APIMapping.ApiMapping :=
  {| APIMapping.ApiId := Some "api-1"; APIMapping.ApiMappingId := Some "m1";
     APIMapping.ApiMappingKey := None; APIMapping.Stage := Some "prod" |}.

End Samples.

Section NodeGroupSamples.
Import Go Runtime NodeGroup.

Definition errCreateFailed_example := "failed to create node group".
Definition errDeleteFailed_example := "failed to delete node group".
Definition NodeGroupStatusCreating_example : NodeGroupStatusType := "CREATING".
Definition NodeGroupStatusDeleting_example : NodeGroupStatusType := "DELETING".

(** No table case below reaches the continuation of a successful describe
    call. *)
Definition observeExisting_example (cr : NodeGroup) (rsp : DescribeNodegroupOutput)
    : NodeGroup * ExternalObservation * option error :=
  (withStatus (ng_Status rsp) cr,
   {| ResourceExists := true; ResourceUpToDate := true; ConnectionDetails := ∅ |},
   None).

Definition Observe_example := Observe textIsNotFound observeExisting_example.
Definition Create_example :=
  Create errCreateFailed_example NodeGroupStatusCreating_example.
Definition Delete_example :=
  Delete textIsNotFound errDeleteFailed_example NodeGroupStatusDeleting_example.

(** A fake client whose three requests all answer with [err]. *)
Definition failing (err : error) : MockClient :=
  {| MockDescribeNodegroupRequest := inl err;
     MockCreateNodegroupRequest := Some err;
     MockDeleteNodegroupRequest := Some err |}.

Definition succeeding : MockClient :=
  {| MockDescribeNodegroupRequest := inr {| ng_Status := "ACTIVE"; ng_Version := None |};
     MockCreateNodegroupRequest := None;
     MockDeleteNodegroupRequest := None |}.

Definition errNotFound : error := ErrorString ErrCodeResourceNotFoundException.

End NodeGroupSamples.

(** * Properties *)

(** ** SNS subscription attributes *)

Section SNSAttributes.
Import Go SNS.

Lemma getSubAttributes_lookup p k v :
  getSubAttributes p !! k = Some v ↔
  k ∈ subscription_attribute_keys ∧ v = desired_value p k.
Proof.
  unfold getSubAttributes, subscription_attribute_keys, desired_value.
  rewrite !lookup_insert_Some, lookup_empty.
  rewrite !elem_of_cons, elem_of_nil.
  split.
  - intros [[<- <-]|[? [[<- <-]|[? [[<- <-]|[? [[<- <-]|[? ?]]]]]]]]; try done; auto 6.
  - intros [[->|[->|[->|[->|[]]]]] ->]; cbn.
    + by left.
    + right. split; [done|]. by left.
    + right. split; [done|]. right. split; [done|]. by left.
    + right. split; [done|]. right. split; [done|]. right. split; [done|]. by left.
Qed.

(** Whatever order the loop visits the keys in, it keeps exactly the
    entries of the desired map that differ from the observed one. *)
Lemma GetChangedSubAttributes_filter p attrs :
  GetChangedSubAttributes p attrs =
  filter (λ kv, kv.2 ≠ map_index attrs kv.1) (getSubAttributes p).
Proof.
  unfold GetChangedSubAttributes.
  apply (map_fold_weak_ind (λ r m, r = filter (λ kv, kv.2 ≠ map_index attrs kv.1) m)).
  - by rewrite map_filter_empty.
  - intros k v m r Hk ->. unfold changed_step.
    destruct (String.eqb_spec v (map_index attrs k)) as [Heq|Hne].
    + rewrite map_filter_insert_False by (simpl; tauto).
      by rewrite delete_id.
    + by rewrite map_filter_insert_True.
Qed.

(** The loop run over the entries in a given order. *)
Lemma changed_loop_from (attrs : gmap string string) (order : list (string * string))
    (changedAttrs : gmap string string) :
  NoDup order.*1 →
  (∀ k, k ∈ order.*1 → changedAttrs !! k = None) →
  fold_left (λ acc kv, changed_step attrs kv.1 kv.2 acc) order changedAttrs =
  filter (λ kv, kv.2 ≠ map_index attrs kv.1) (list_to_map order) ∪ changedAttrs.
Proof.
  revert changedAttrs.
  induction order as [|[k v] order IH]; intros acc Hnodup Hfree.
  - simpl. by rewrite map_filter_empty, (left_id ∅ (∪)).
  - apply NoDup_cons in Hnodup as [Hk Hnodup]. simpl in Hk.
    assert ((list_to_map order : gmap string string) !! k = None) as Hnone
      by (by apply not_elem_of_list_to_map_1).
    assert (∀ k', k' ∈ order.*1 → k' ≠ k) as Hne by (intros k' Hin ->; done).
    cbn [fold_left fst snd list_to_map foldr uncurry].
    unfold changed_step at 2.
    destruct (String.eqb_spec v (map_index attrs k)) as [Heq|Hdiff].
    + rewrite IH; [|done|].
      * rewrite map_filter_insert_False by (simpl; tauto).
        by rewrite delete_id.
      * intros k' Hin. apply Hfree. simpl. by apply list_elem_of_further.
    + rewrite IH; [|done|].
      * rewrite map_filter_insert_True by done.
        rewrite <- insert_union_l, <- insert_union_r; [done|].
        apply map_lookup_filter_None. by left.
      * intros k' Hin. rewrite lookup_insert_ne by (apply not_eq_sym, Hne, Hin).
        apply Hfree. simpl. by apply list_elem_of_further.
Qed.

(** Go does not fix the order in which [range] visits a map: in whatever
    order the entries of the desired map are visited, the loop builds the
    map [GetChangedSubAttributes] stands for. *)
Lemma GetChangedSubAttributes_any_order p attrs (order : list (string * string)) :
  order ≡ₚ map_to_list (getSubAttributes p) →
  fold_left (λ acc kv, changed_step attrs kv.1 kv.2 acc) order ∅ =
  GetChangedSubAttributes p attrs.
Proof.
  intros Hperm.
  assert (NoDup order.*1) as Hnodup.
  { rewrite Hperm. apply NoDup_fst_map_to_list. }
  rewrite changed_loop_from by (done || intros; apply lookup_empty).
  rewrite (right_id ∅ (∪)), GetChangedSubAttributes_filter.
  f_equal. rewrite (list_to_map_proper order (map_to_list (getSubAttributes p))) by done.
  apply list_to_map_to_list.
Qed.

Lemma GetChangedSubAttributes_lookup p attrs k v :
  GetChangedSubAttributes p attrs !! k = Some v ↔
  k ∈ subscription_attribute_keys ∧ v = desired_value p k ∧
  desired_value p k ≠ map_index attrs k.
Proof.
  rewrite GetChangedSubAttributes_filter, map_lookup_filter_Some.
  rewrite getSubAttributes_lookup. simpl.
  split.
  - intros [[? ->] ?]. done.
  - intros (? & -> & ?). done.
Qed.

Lemma IsSNSSubscriptionAttributesUpToDate_spec p attrs :
  IsSNSSubscriptionAttributesUpToDate p attrs = true ↔
  ∀ k, k ∈ subscription_attribute_keys → desired_value p k = map_index attrs k.
Proof.
  unfold IsSNSSubscriptionAttributesUpToDate.
  rewrite !andb_true_iff, !String.eqb_eq.
  unfold subscription_attribute_keys. split.
  - intros [[[H1 H2] H3] H4] k.
    rewrite !elem_of_cons, elem_of_nil.
    intros [->|[->|[->|[->|[]]]]]; assumption.
  - intros H. repeat split.
    + apply (H SubscriptionDeliveryPolicy). set_solver.
    + apply (H SubscriptionFilterPolicy). set_solver.
    + apply (H SubscriptionRawMessageDelivery). set_solver.
    + apply (H SubscriptionRedrivePolicy). set_solver.
Qed.

(** C1: for every parameters value [p] and observed attribute map [attrs],
    [IsSNSSubscriptionAttributesUpToDate p attrs] is true if and only if
    [GetChangedSubAttributes p attrs] is the empty map: the up-to-date
    check and the diff agree on whether an update is needed. *)
Theorem up_to_date_iff_no_changed_attributes :
  ∀ (p : SNSSubscriptionParameters) (attrs : gmap string string),
    IsSNSSubscriptionAttributesUpToDate p attrs = true ↔
    GetChangedSubAttributes p attrs = ∅.
Proof.
  intros p attrs.
  rewrite IsSNSSubscriptionAttributesUpToDate_spec. split.
  - intros H. apply map_eq. intros k. rewrite lookup_empty.
    destruct (GetChangedSubAttributes p attrs !! k) as [v|] eqn:E; [|done].
    apply GetChangedSubAttributes_lookup in E as (Hk & _ & Hne).
    destruct Hne. apply H, Hk.
  - intros Hempty k Hk.
    destruct (String.eqb_spec (desired_value p k) (map_index attrs k)) as [|Hne]; [done|].
    assert (GetChangedSubAttributes p attrs !! k = Some (desired_value p k)) as E.
    { apply GetChangedSubAttributes_lookup. repeat split; assumption. }
    rewrite Hempty, lookup_empty in E. discriminate E.
Qed.

(** C3: the map [GetChangedSubAttributes p attrs] binds a key [k] to [v]
    exactly when [k] is one of the four subscription attributes, [v] is the
    desired value of [k] (the empty string for a nil field), and that value
    differs from [attrs] at [k]; so its keys are those four attributes that
    differ, each bound to the desired value, and no other key appears. *)
Theorem changed_attributes_are_the_differing_ones :
  ∀ (p : SNSSubscriptionParameters) (attrs : gmap string string),
    (∀ k v, GetChangedSubAttributes p attrs !! k = Some v ↔
            k ∈ subscription_attribute_keys ∧ v = desired_value p k ∧
            v ≠ map_index attrs k) ∧
    dom (GetChangedSubAttributes p attrs) =
      list_to_set (filter (λ k, desired_value p k ≠ map_index attrs k)
                          subscription_attribute_keys) ∧
    desired_value p SubscriptionDeliveryPolicy = StringValue (DeliveryPolicy p) ∧
    desired_value p SubscriptionFilterPolicy = StringValue (FilterPolicy p) ∧
    desired_value p SubscriptionRawMessageDelivery = StringValue (RawMessageDelivery p) ∧
    desired_value p SubscriptionRedrivePolicy = StringValue (RedrivePolicy p).
Proof.
  intros p attrs. split; [|split; [|done]].
  - intros k v. rewrite GetChangedSubAttributes_lookup.
    split; intros (? & -> & ?); done.
  - apply set_eq. intros k.
    rewrite elem_of_dom, elem_of_list_to_set, list_elem_of_filter.
    unfold is_Some. split.
    + intros [v Hv]. apply GetChangedSubAttributes_lookup in Hv as (? & _ & ?).
      split; assumption.
    + intros [? ?]. exists (desired_value p k).
      apply GetChangedSubAttributes_lookup. repeat split; assumption.
Qed.

End SNSAttributes.

(** ** Recognizing a missing cloud object *)

Section NotFound.
Import Go.

Lemma assert_awserr_Some (err : option error) (e : error) :
  assert_awserr err = Some e ↔ ∃ code msg, err = Some (AwsErr code msg) ∧ e = AwsErr code msg.
Proof.
  split.
  - destruct err as [[c m| |]|]; simpl; intros [= <-]; eauto.
  - intros (c & m & -> & ->). reflexivity.
Qed.

Lemma code_check_iff (err : option error) (wanted : string) :
  match assert_awserr err with
  | Some e => String.eqb (Code e) wanted
  | None => false
  end = true ↔ ∃ msg, err = Some (AwsErr wanted msg).
Proof.
  destruct err as [[c m| |]|]; simpl.
  - rewrite String.eqb_eq. split.
    + intros ->. eauto.
    + intros [msg [= -> _]]. reflexivity.
  - split; [discriminate | intros [? [=]]].
  - split; [discriminate | intros [? [=]]].
  - split; [discriminate | intros [? [=]]].
Qed.

(** C2: [IsSubscriptionNotFound err] is true if and only if [err] is an AWS
    SDK error whose code is the SNS not-found code, and [IsNotFound err] is
    true if and only if [err] is an AWS SDK error whose code is
    "NotFoundException"; the nil error, an error that is not an AWS SDK
    error (also one wrapping an AWS SDK error) and an AWS SDK error with
    another code all yield false. *)
Theorem not_found_recognized_exactly_by_code :
  ∀ (ErrCodeNotFoundException : string) (err : option error),
    (SNS.IsSubscriptionNotFound ErrCodeNotFoundException err = true ↔
       ∃ msg, err = Some (AwsErr ErrCodeNotFoundException msg)) ∧
    (APIMapping.IsNotFound err = true ↔
       ∃ msg, err = Some (AwsErr "NotFoundException" msg)) ∧
    ((∀ code msg, err ≠ Some (AwsErr code msg)) →
       SNS.IsSubscriptionNotFound ErrCodeNotFoundException err = false ∧
       APIMapping.IsNotFound err = false) ∧
    (∀ code msg, err = Some (AwsErr code msg) →
       (code ≠ ErrCodeNotFoundException →
          SNS.IsSubscriptionNotFound ErrCodeNotFoundException err = false) ∧
       (code ≠ "NotFoundException" → APIMapping.IsNotFound err = false)).
Proof.
  intros wanted err.
  split; [apply code_check_iff|].
  split; [apply code_check_iff|].
  split.
  - intros Hno. unfold SNS.IsSubscriptionNotFound, APIMapping.IsNotFound.
    destruct (assert_awserr err) as [e|] eqn:E; [|done].
    apply assert_awserr_Some in E as (c & m & -> & _).
    by destruct (Hno c m).
  - intros code msg ->. unfold SNS.IsSubscriptionNotFound, APIMapping.IsNotFound.
    simpl. split; intros Hne; by apply String.eqb_neq.
Qed.

End NotFound.

(** ** SNS observation and late initialization *)

Section SNSObservation.
Import Go SNS.

Lemma ParseBool_empty : ParseBool "" = None.
Proof. reflexivity. Qed.

(** C9: for every attribute map, the observation's [Owner] points at the
    (possibly empty) Owner attribute and its [Status] is non-nil; when the
    PendingConfirmation attribute is missing or does not parse as a boolean
    [Status] points at the empty confirmation status;
    [ConfirmationWasAuthenticated] points at the parsed boolean when that
    attribute parses and is nil otherwise. *)
Theorem observation_status_and_owner_never_nil :
  ∀ (ConfirmationPending ConfirmationSuccessful : ConfirmationStatus)
    (attr : gmap string string),
    let o := GenerateSubscriptionObservation ConfirmationPending ConfirmationSuccessful attr in
    Owner o = Some (map_index attr SubscriptionOwner) ∧
    is_Some (Owner o) ∧ is_Some (Status o) ∧
    (attr !! SubscriptionPendingConfirmation = None → Status o = Some "") ∧
    (ParseBool (map_index attr SubscriptionPendingConfirmation) = None →
       Status o = Some "") ∧
    (∀ b, ParseBool (map_index attr SubscriptionConfirmationWasAuthenticated) = Some b →
       ConfirmationWasAuthenticated o = Some b) ∧
    (ParseBool (map_index attr SubscriptionConfirmationWasAuthenticated) = None →
       ConfirmationWasAuthenticated o = None).
Proof.
  intros pending successful attr o. subst o.
  unfold GenerateSubscriptionObservation. simpl.
  repeat split; eauto.
  - intros Hmissing. unfold map_index at 1. rewrite Hmissing. reflexivity.
  - intros ->. reflexivity.
  - intros b ->. reflexivity.
  - intros ->. reflexivity.
Qed.

Lemma LateInitializeStringPtr_set (s : string) (from : option string) :
  LateInitializeStringPtr (Some s) from = Some s.
Proof. reflexivity. Qed.

(** C6: [LateInitializeSubscription] leaves each of DeliveryPolicy,
    FilterPolicy, RawMessageDelivery and RedrivePolicy that was non-nil
    before the call at its value, and leaves the other fields of the
    parameters (TopicARN, Protocol, Endpoint) unchanged. *)
Theorem late_initialize_keeps_set_fields :
  ∀ (awsclients_String : string → option string)
    (in_ : SNSSubscriptionParameters) (subAttributes : gmap string string),
    let out := LateInitializeSubscription awsclients_String in_ subAttributes in
    (∀ s, DeliveryPolicy in_ = Some s → DeliveryPolicy out = Some s) ∧
    (∀ s, FilterPolicy in_ = Some s → FilterPolicy out = Some s) ∧
    (∀ s, RawMessageDelivery in_ = Some s → RawMessageDelivery out = Some s) ∧
    (∀ s, RedrivePolicy in_ = Some s → RedrivePolicy out = Some s) ∧
    TopicARN out = TopicARN in_ ∧
    Protocol out = Protocol in_ ∧
    Endpoint out = Endpoint in_.
Proof.
  intros conv in_ attrs out. subst out.
  unfold LateInitializeSubscription. simpl.
  repeat split; intros s ->; apply LateInitializeStringPtr_set.
Qed.

End SNSObservation.

(** ** Conditions *)

Section Conditions.
Import Go Runtime.

Lemma Equal_refl (c : Condition) : Equal c c = true.
Proof. unfold Equal. by rewrite !String.eqb_refl. Qed.

(** After [SetCondition] the list holds a condition that is [Equal] to the
    new one: the one kept, the one overwritten, or the one appended. *)
Lemma SetCondition_holds (conditions : list Condition) (new : Condition) :
  ∃ c, c ∈ SetCondition conditions new ∧ Equal c new = true.
Proof.
  unfold SetCondition.
  induction conditions as [|existing rest IH]; simpl.
  - exists new. split; [apply list_elem_of_here | apply Equal_refl].
  - destruct (String.eqb (Type_ existing) (Type_ new)) eqn:Ety; simpl.
    + destruct (Equal existing new) eqn:Eeq.
      * exists existing. split; [apply list_elem_of_here | exact Eeq].
      * exists new. split; [apply list_elem_of_here | apply Equal_refl].
    + destruct IH as (c & Hin & Heq). exists c. split; [|exact Heq].
      destruct (existsb _ rest); apply list_elem_of_further, Hin.
Qed.

(** Conditions of another type are neither added nor dropped. *)
Lemma SetCondition_other_types (conditions : list Condition) (new : Condition) :
  filter (λ c, Type_ c ≠ Type_ new) (SetCondition conditions new) =
  filter (λ c, Type_ c ≠ Type_ new) conditions.
Proof.
  unfold SetCondition.
  assert (filter (λ c, Type_ c ≠ Type_ new)
            (map (λ existing,
               if negb (String.eqb (Type_ existing) (Type_ new)) then existing
               else if Equal existing new then existing else new) conditions) =
          filter (λ c, Type_ c ≠ Type_ new) conditions) as Hmap.
  { induction conditions as [|existing rest IH]; [done|]. simpl.
    destruct (String.eqb_spec (Type_ existing) (Type_ new)) as [Heq|Hne]; simpl.
    - rewrite (filter_cons_False _ existing) by tauto.
      destruct (Equal existing new); rewrite filter_cons_False by tauto; done.
    - rewrite !filter_cons_True by done. by rewrite IH. }
  destruct (existsb _ conditions); [done|].
  rewrite filter_app, Hmap, filter_cons_False by tauto.
  by rewrite filter_nil, app_nil_r.
Qed.

End Conditions.

(** ** The Authorizer hooks *)

Section AuthorizerHooks.
Import Go Runtime Authorizer.

(** C7: with a non-nil incoming error [postObserve] returns the empty
    observation and that error and leaves [cr] as it was (no condition is
    set); with a nil error it returns [obs] unchanged and no error, and the
    conditions of [cr] are those [SetConditions] builds from [Available]:
    they hold a Ready condition with status True and reason Available, the
    conditions of other types are as before, and nothing else of [cr]
    changes. *)
Theorem postObserve_sets_available_unless_error :
  ∀ (now : Time) (cr : Authorizer.Authorizer) (obs : ExternalObservation),
    (∀ e, postObserve now cr obs (Some e) = (cr, ExternalObservation_zero, Some e)) ∧
    (∃ cr', postObserve now cr obs None = (cr', obs, None) ∧
       Conditions cr' = SetConditions (Conditions cr) [Available now] ∧
       (∃ c, c ∈ Conditions cr' ∧ Type_ c = TypeReady ∧ Status c = ConditionTrue ∧
             Reason c = ReasonAvailable) ∧
       filter (λ c, Type_ c ≠ TypeReady) (Conditions cr') =
         filter (λ c, Type_ c ≠ TypeReady) (Conditions cr) ∧
       Annotations cr' = Annotations cr ∧ APIID cr' = APIID cr ∧
       AuthorizerID cr' = AuthorizerID cr).
Proof.
  intros now cr obs. split; [done|].
  eexists. split; [reflexivity|]. simpl.
  split; [done|]. split; [|split; [|done]].
  - destruct (SetCondition_holds (Conditions cr) (Available now)) as (c & Hin & Heq).
    exists c. split; [done|].
    unfold Equal in Heq. rewrite !andb_true_iff, !String.eqb_eq in Heq.
    destruct Heq as [[[-> ->] ->] _]. done.
  - apply (SetCondition_other_types (Conditions cr) (Available now)).
Qed.

(** The loop of [filterList] appends to the object at [res] the items whose
    name is the external name, in the order it meets them. *)
Lemma filterList_loop (cr : Authorizer.Authorizer) (res : loc) (items acc : list SdkAuthorizer)
    (nt : option string) (σ : store) :
  fold_left (filterList_step cr res) items
    (<[res := {| Items := acc; NextToken := nt |}]> σ) =
  <[res := {| Items := acc ++
                filter (λ a, GetExternalName (Annotations cr) = StringValue (Name a)) items;
              NextToken := nt |}]> σ.
Proof.
  revert acc. induction items as [|a items IH]; intros acc; simpl.
  - by rewrite filter_nil, app_nil_r.
  - unfold filterList_step at 2.
    destruct (String.eqb_spec (GetExternalName (Annotations cr)) (StringValue (Name a)))
      as [Heq|Hne].
    + rewrite alter_insert_eq. unfold append_item; simpl.
      rewrite IH, filter_cons_True by done. by rewrite <- app_assoc.
    + rewrite IH, filter_cons_False by done. done.
Qed.

(** C8: when [list] points at an output [l], [filterList] returns a pointer
    [res] to a newly allocated output whose items are exactly the items of
    [l] whose name (nil read as the empty string) is the external name of
    [cr], in their original order; the object at [list] and every other
    object of the store are as before. *)
Theorem filterList_keeps_matching_items :
  ∀ (σ : store) (cr : Authorizer.Authorizer) (list : loc) (l : GetAuthorizersOutput),
    σ !! list = Some l →
    ∃ σ' res,
      filterList σ cr list = Some (σ', res) ∧
      σ !! res = None ∧
      σ' !! res =
        Some {| Items := filter (λ a, GetExternalName (Annotations cr) = StringValue (Name a))
                           (Items l);
                NextToken := None |} ∧
      σ' !! list = Some l ∧
      (∀ other, other ≠ res → σ' !! other = σ !! other).
Proof.
  intros σ cr list l Hl.
  unfold filterList. rewrite Hl.
  set (res := fresh (dom σ)).
  assert (σ !! res = None) as Hfresh.
  { apply not_elem_of_dom. apply is_fresh. }
  eexists _, res. split; [reflexivity|].
  rewrite filterList_loop. simpl.
  split; [done|]. split; [apply lookup_insert_eq|].
  assert (∀ other, other ≠ res →
            <[res := {| Items := filter (λ a, GetExternalName (Annotations cr) =
                                               StringValue (Name a)) (Items l);
                        NextToken := None |}]> σ !! other = σ !! other) as Hframe.
  { intros other Hne. by rewrite lookup_insert_ne. }
  split; [|exact Hframe].
  rewrite Hframe; [done|]. intros ->. congruence.
Qed.

End AuthorizerHooks.

(** ** The APIMapping conversion *)

Section APIMappingConversion.
Import Go APIMapping.

(** C10: [GenerateAPIMapping] reads only the first item: its result on
    [resp] is its result on a response holding just that item; the result
    is the all-empty APIMapping when there is no item; otherwise each of
    APIID, APIMappingID and Stage of [Status.AtProvider] and APIMappingKey
    of [Spec.ForProvider] is the first item's field when that is non-nil
    and stays nil when it is nil. *)
Theorem GenerateAPIMapping_reads_first_item :
  ∀ (resp : GetApiMappingsOutput),
    GenerateAPIMapping resp =
      GenerateAPIMapping {| Items := take 1 (Items resp); NextToken := NextToken resp |} ∧
    (∀ nt, GenerateAPIMapping resp =
      GenerateAPIMapping {| Items := take 1 (Items resp); NextToken := nt |}) ∧
    match Items resp with
    | [] => GenerateAPIMapping resp = APIMapping_zero
    | elem :: _ =>
        let cr := GenerateAPIMapping resp in
        APIID (AtProvider cr) = ApiId elem ∧
        APIMappingID (AtProvider cr) = ApiMappingId elem ∧
        AtProvider_Stage (AtProvider cr) = Stage elem ∧
        APIMappingKey (ForProvider cr) = ApiMappingKey elem
    end.
Proof.
  intros [items nt]. unfold GenerateAPIMapping. simpl.
  destruct items as [|[apiId mappingId key stage] rest]; simpl; [done|].
  unfold GenerateAPIMapping_body. simpl.
  destruct apiId, mappingId, key, stage; done.
Qed.

End APIMappingConversion.

(** ** The node group controller's error paths *)

Section NodeGroupErrors.
Import Go Runtime NodeGroup.

Variable IsErrorNotFound : error → bool.
Variables errCreateFailed errDeleteFailed : string.
Variables NodeGroupStatusCreating NodeGroupStatusDeleting : NodeGroupStatusType.
Variable observeExisting :
  NodeGroup → DescribeNodegroupOutput → NodeGroup * ExternalObservation * option error.

Local Abbreviation Observe := (NodeGroup.Observe IsErrorNotFound observeExisting).
Local Abbreviation Create := (NodeGroup.Create errCreateFailed NodeGroupStatusCreating).
Local Abbreviation Delete :=
  (NodeGroup.Delete IsErrorNotFound errDeleteFailed NodeGroupStatusDeleting).

Lemma cr_SetConditions_frame (cr : NodeGroup) (c : list Condition) :
  ProviderReference (cr_SetConditions cr c) = ProviderReference cr ∧
  ForProvider (cr_SetConditions cr c) = ForProvider cr ∧
  AtProviderStatus (cr_SetConditions cr c) = AtProviderStatus cr ∧
  Conditions (cr_SetConditions cr c) = SetConditions (Conditions cr) c.
Proof. done. Qed.

(** C4: when the DeleteNodegroup call fails with an error recognized as the
    not-found code, [Delete] returns a nil error and the custom resource
    with the Deleting condition set; when the DescribeNodegroup call of
    [Observe] fails with such an error, [Observe] returns no error, an
    observation saying the resource does not exist, and the custom resource
    unchanged. *)
Theorem not_found_is_treated_as_absent :
  ∀ (now : Time) (client : MockClient) (cr : NodeGroup) (err : error),
    IsErrorNotFound err = true →
    (MockDeleteNodegroupRequest client = Some err →
       Delete now client cr = (cr_SetConditions cr [Deleting now], None) ∧
       ∃ c, c ∈ Conditions (cr_SetConditions cr [Deleting now]) ∧
            Type_ c = TypeReady ∧ Status c = ConditionFalse ∧ Reason c = ReasonDeleting) ∧
    (MockDescribeNodegroupRequest client = inl err →
       ∃ obs, Observe client cr = (cr, obs, None) ∧ ResourceExists obs = false).
Proof.
  intros now client cr err Hnf. split.
  - intros Hcall. split.
    + unfold NodeGroup.Delete. rewrite Hcall, Hnf.
      by destruct (String.eqb _ _).
    + destruct (SetCondition_holds (Conditions cr) (Deleting now)) as (c & Hin & Heq).
      exists c. split; [exact Hin|].
      unfold Equal in Heq. rewrite !andb_true_iff, !String.eqb_eq in Heq.
      destruct Heq as [[[-> ->] ->] _]. done.
  - intros Hcall. exists ExternalObservation_zero.
    unfold NodeGroup.Observe. by rewrite Hcall, Hnf.
Qed.

(** C5: when the first AWS call of an operation fails with an error that is
    not recognized as not-found, the operation returns that error wrapped
    with its own static string: [errDescribeFailed], "failed to describe
    node group", for [Observe], [errDeleteFailed] for [Delete] and
    [errCreateFailed] for [Create]; [Observe] leaves the custom resource
    as it was, and [Delete] and [Create] change nothing of it but the
    conditions, where they set Deleting and Creating. *)
Theorem first_failing_call_is_wrapped :
  ∀ (now : Time) (client : MockClient) (cr : NodeGroup) (err : error),
    IsErrorNotFound err = false →
    (MockDescribeNodegroupRequest client = inl err →
       Observe client cr =
         (cr, ExternalObservation_zero,
          Wrap (Some err) "failed to describe node group")) ∧
    (MockDeleteNodegroupRequest client = Some err →
     AtProviderStatus cr ≠ NodeGroupStatusDeleting →
       ∃ cr', Delete now client cr = (cr', Wrap (Some err) errDeleteFailed) ∧
              ProviderReference cr' = ProviderReference cr ∧
              ForProvider cr' = ForProvider cr ∧
              AtProviderStatus cr' = AtProviderStatus cr ∧
              Conditions cr' = SetConditions (Conditions cr) [Deleting now]) ∧
    (MockCreateNodegroupRequest client = Some err →
     AtProviderStatus cr ≠ NodeGroupStatusCreating →
       ∃ cr', Create now client cr = (cr', Wrap (Some err) errCreateFailed) ∧
              ProviderReference cr' = ProviderReference cr ∧
              ForProvider cr' = ForProvider cr ∧
              AtProviderStatus cr' = AtProviderStatus cr ∧
              Conditions cr' = SetConditions (Conditions cr) [Creating now]).
Proof.
  intros now client cr err Hother. repeat split.
  - intros Hcall. unfold NodeGroup.Observe. by rewrite Hcall, Hother.
  - intros Hcall Hstatus. exists (cr_SetConditions cr [Deleting now]).
    split; [|apply cr_SetConditions_frame].
    unfold NodeGroup.Delete. rewrite Hcall, Hother.
    destruct (String.eqb_spec (AtProviderStatus (cr_SetConditions cr [Deleting now]))
                NodeGroupStatusDeleting) as [Heq|_]; [|done].
    by destruct Hstatus.
  - intros Hcall Hstatus. exists (cr_SetConditions cr [Creating now]).
    split; [|apply cr_SetConditions_frame].
    unfold NodeGroup.Create. rewrite Hcall.
    destruct (String.eqb_spec (AtProviderStatus (cr_SetConditions cr [Creating now]))
                NodeGroupStatusCreating) as [Heq|_]; [|done].
    by destruct Hstatus.
Qed.

End NodeGroupErrors.

(** ** Concrete runs *)

Section Runs.
Import Go Runtime.

(** *** SNS *)

Example changed_attributes_run :
  SNS.GetChangedSubAttributes params_example attrs_example =
  <["RawMessageDelivery" := "true"]> (<["RedrivePolicy" := ""]> ∅).
Proof. vm_compute. reflexivity. Qed.

Example up_to_date_run :
  SNS.IsSNSSubscriptionAttributesUpToDate params_example attrs_example = false.
Proof. vm_compute. reflexivity. Qed.

Example observation_run :
  SNS.GenerateSubscriptionObservation "ConfirmationPending" "Confirmed" attrs_example =
  {| SNS.Owner := Some "123456789012"; SNS.Status := Some "Confirmed";
     SNS.ConfirmationWasAuthenticated := None |}.
Proof. vm_compute. reflexivity. Qed.

Example observation_of_nothing_run :
  SNS.GenerateSubscriptionObservation "ConfirmationPending" "Confirmed" ∅ =
  {| SNS.Owner := Some ""; SNS.Status := Some "";
     SNS.ConfirmationWasAuthenticated := None |}.
Proof. vm_compute. reflexivity. Qed.

Example late_initialize_run :
  SNS.LateInitializeSubscription
    (λ v, if String.eqb v "" then None else Some v) params_example attrs_example =
  {| SNS.TopicARN := "arn:aws:sns:us-east-1:1:topic"; SNS.Protocol := "https";
     SNS.Endpoint := "https://example.org/hook";
     SNS.DeliveryPolicy := Some "{}"; SNS.FilterPolicy := None;
     SNS.RawMessageDelivery := Some "true"; SNS.RedrivePolicy := Some "{r}" |}.
Proof. vm_compute. reflexivity. Qed.

Example wrapped_aws_error_is_not_found_run :
  SNS.IsSubscriptionNotFound "NotFound" (Some (AwsErr "NotFound" "gone")) = true ∧
  SNS.IsSubscriptionNotFound "NotFound"
    (Some (WithMessage (AwsErr "NotFound" "gone") "cannot get")) = false ∧
  APIMapping.IsNotFound (Some (AwsErr "NotFoundException" "gone")) = true ∧
  APIMapping.IsNotFound (Some (ErrorString "NotFoundException")) = false ∧
  APIMapping.IsNotFound None = false.
Proof. repeat split. Qed.

(** *** Authorizer *)

Example filterList_run :
  Authorizer.filterList store_example authorizer_example 5%positive =
  Some (<[6%positive :=
            {| Authorizer.Items := [item_example "a" (Some "jwt"); item_example "d" (Some "jwt")];
               Authorizer.NextToken := None |}]> store_example,
        6%positive).
Proof. vm_compute. reflexivity. Qed.

Example filterList_nil_run :
  Authorizer.filterList store_example authorizer_example 7%positive = None.
Proof. vm_compute. reflexivity. Qed.

Example postObserve_run :
  Authorizer.postObserve 2%Z authorizer_example
    {| ResourceExists := true; ResourceUpToDate := true; ConnectionDetails := ∅ |} None =
  ({| Authorizer.Annotations := <["crossplane.io/external-name" := "jwt"]> ∅;
      Authorizer.APIID := Some "api-1"; Authorizer.AuthorizerID := None;
      Authorizer.Conditions := [Available 2%Z] |},
   {| ResourceExists := true; ResourceUpToDate := true; ConnectionDetails := ∅ |},
   None).
Proof. vm_compute. reflexivity. Qed.

(** *** APIMapping *)

Example GenerateAPIMapping_run :
  APIMapping.GenerateAPIMapping
    {| APIMapping.Items :=
         [ {| APIMapping.ApiId := Some "api-1"; APIMapping.ApiMappingId := None;
              APIMapping.ApiMappingKey := Some "v1"; APIMapping.Stage := Some "prod" |};
           {| APIMapping.ApiId := Some "api-2"; APIMapping.ApiMappingId := Some "m2";
              APIMapping.ApiMappingKey := None; APIMapping.Stage := None |} ];
       APIMapping.NextToken := None |} =
  {| APIMapping.ForProvider := {| APIMapping.APIMappingKey := Some "v1" |};
     APIMapping.AtProvider :=
       {| APIMapping.APIID := Some "api-1"; APIMapping.APIMappingID := None;
          APIMapping.AtProvider_Stage := Some "prod" |} |}.
Proof. reflexivity. Qed.

End Runs.

(** ** The node group test tables

    The cases of TestObserve, TestCreate and TestDelete that fail or skip
    the first call, run on the operations above with a recognizer that
    reads the code off the error's text. *)

Section NodeGroupTables.
Import Go Runtime NodeGroup.

Example TestObserve_FailedDescribeRequest :
  Observe_example (failing errBoom) nodeGroup =
  (nodeGroup, ExternalObservation_zero, Wrap (Some errBoom) errDescribeFailed).
Proof. reflexivity. Qed.

Example TestObserve_NotFound :
  Observe_example (failing errNotFound) nodeGroup =
  (nodeGroup, ExternalObservation_zero, None).
Proof. reflexivity. Qed.

Example TestCreate_Successful (now : Time) :
  Create_example now succeeding nodeGroup = (withConditions [Creating now] nodeGroup, None).
Proof. reflexivity. Qed.

Example TestCreate_SuccessfulNoNeedForCreate (now : Time) :
  Create_example now (failing errBoom) (withStatus NodeGroupStatusCreating_example nodeGroup) =
  (withConditions [Creating now] (withStatus NodeGroupStatusCreating_example nodeGroup), None).
Proof. reflexivity. Qed.

Example TestCreate_FailedRequest (now : Time) :
  Create_example now (failing errBoom) nodeGroup =
  (withConditions [Creating now] nodeGroup, Wrap (Some errBoom) errCreateFailed_example).
Proof. reflexivity. Qed.

Example TestDelete_Successful (now : Time) :
  Delete_example now succeeding nodeGroup = (withConditions [Deleting now] nodeGroup, None).
Proof. reflexivity. Qed.

Example TestDelete_AlreadyDeleting (now : Time) :
  Delete_example now (failing errBoom) (withStatus NodeGroupStatusDeleting_example nodeGroup) =
  (withConditions [Deleting now] (withStatus NodeGroupStatusDeleting_example nodeGroup), None).
Proof. reflexivity. Qed.

Example TestDelete_AlreadyDeleted (now : Time) :
  Delete_example now (failing errNotFound) nodeGroup =
  (withConditions [Deleting now] nodeGroup, None).
Proof. reflexivity. Qed.

Example TestDelete_Failed (now : Time) :
  Delete_example now (failing errBoom) nodeGroup =
  (withConditions [Deleting now] nodeGroup, Wrap (Some errBoom) errDeleteFailed_example).
Proof. reflexivity. Qed.

End NodeGroupTables.

(** ** The conditional statements at concrete inputs *)

(** The AlreadyDeleted and NotFound cases of the tables, through the
    general statement. *)
Lemma not_found_is_treated_as_absent_at_test_case :
  NodeGroup.textIsNotFound errNotFound = true ∧
  Delete_example 7%Z (failing errNotFound) NodeGroup.nodeGroup =
    (NodeGroup.cr_SetConditions NodeGroup.nodeGroup [Runtime.Deleting 7%Z], None) ∧
  ∃ obs, Observe_example (failing errNotFound) NodeGroup.nodeGroup =
           (NodeGroup.nodeGroup, obs, None) ∧
         Runtime.ResourceExists obs = false.
Proof.
  split; [reflexivity|].
  destruct (not_found_is_treated_as_absent
              NodeGroup.textIsNotFound errDeleteFailed_example
              NodeGroupStatusDeleting_example observeExisting_example
              7%Z (failing errNotFound) NodeGroup.nodeGroup errNotFound eq_refl)
    as [Hdelete Hobserve].
  split.
  - exact (proj1 (Hdelete eq_refl)).
  - exact (Hobserve eq_refl).
Defined.

(** The FailedDescribeRequest, Failed and FailedRequest cases of the
    tables, through the general statement. *)
Lemma first_failing_call_is_wrapped_at_test_case :
  NodeGroup.textIsNotFound NodeGroup.errBoom = false ∧
  Observe_example (failing NodeGroup.errBoom) NodeGroup.nodeGroup =
    (NodeGroup.nodeGroup, Runtime.ExternalObservation_zero,
     Some (Go.WithMessage NodeGroup.errBoom "failed to describe node group")) ∧
  (∃ cr', Delete_example 7%Z (failing NodeGroup.errBoom) NodeGroup.nodeGroup =
            (cr', Some (Go.WithMessage NodeGroup.errBoom errDeleteFailed_example)) ∧
          NodeGroup.Conditions cr' = [Runtime.Deleting 7%Z]) ∧
  (∃ cr', Create_example 7%Z (failing NodeGroup.errBoom) NodeGroup.nodeGroup =
            (cr', Some (Go.WithMessage NodeGroup.errBoom errCreateFailed_example)) ∧
          NodeGroup.Conditions cr' = [Runtime.Creating 7%Z]).
Proof.
  split; [reflexivity|].
  destruct (first_failing_call_is_wrapped
              NodeGroup.textIsNotFound errCreateFailed_example errDeleteFailed_example
              NodeGroupStatusCreating_example NodeGroupStatusDeleting_example
              observeExisting_example
              7%Z (failing NodeGroup.errBoom) NodeGroup.nodeGroup NodeGroup.errBoom eq_refl)
    as (Hobserve & Hdelete & Hcreate).
  split; [exact (Hobserve eq_refl)|]. split.
  - destruct (Hdelete eq_refl) as (cr' & Hrun & _ & _ & _ & Hconds); [discriminate|].
    exists cr'. split; [exact Hrun | exact Hconds].
  - destruct (Hcreate eq_refl) as (cr' & Hrun & _ & _ & _ & Hconds); [discriminate|].
    exists cr'. split; [exact Hrun | exact Hconds].
Defined.

(** A listing of four authorizers, two of them named as the resource. *)
Lemma filterList_keeps_matching_items_at_listing :
  store_example !! 5%positive = Some listing_example ∧
  ∃ σ' res,
    Authorizer.filterList store_example authorizer_example 5%positive = Some (σ', res) ∧
    store_example !! res = None ∧
    σ' !! res =
      Some {| Authorizer.Items :=
                [item_example "a" (Some "jwt"); item_example "d" (Some "jwt")];
              Authorizer.NextToken := None |} ∧
    σ' !! 5%positive = Some listing_example ∧
    (∀ other, other ≠ res → σ' !! other = store_example !! other).
Proof.
  assert (store_example !! 5%positive = Some listing_example) as Hlist
    by (vm_compute; reflexivity).
  split; [exact Hlist|].
  exact (filterList_keeps_matching_items
           store_example authorizer_example 5%positive listing_example Hlist).
Defined.

(** * Further properties of the code *)

(** ** SNS: the diff, its application and late initialization *)

Section SNSFurther.
Import Go SNS.

Lemma desired_value_spec_field p k :
  desired_value p k = StringValue (spec_field p k).
Proof.
  unfold desired_value, spec_field.
  repeat (destruct (String.eqb k _); [reflexivity|]). reflexivity.
Qed.

Lemma GetChangedSubAttributes_None p attrs k :
  GetChangedSubAttributes p attrs !! k = None ↔
  k ∉ subscription_attribute_keys ∨ desired_value p k = map_index attrs k.
Proof.
  split.
  - intros Hnone.
    destruct (decide (k ∈ subscription_attribute_keys)) as [Hk|Hk]; [|by left].
    destruct (String.eqb_spec (desired_value p k) (map_index attrs k)) as [|Hne]; [by right|].
    assert (GetChangedSubAttributes p attrs !! k = Some (desired_value p k)) as E.
    { apply GetChangedSubAttributes_lookup. repeat split; assumption. }
    rewrite Hnone in E. discriminate E.
  - intros Hor.
    destruct (GetChangedSubAttributes p attrs !! k) as [v|] eqn:E; [|reflexivity].
    apply GetChangedSubAttributes_lookup in E as (Hk & _ & Hne).
    destruct Hor as [Hout|Heq]; [by destruct Hout | by destruct Hne].
Qed.

Lemma no_changes_when_agree p attrs :
  (∀ k, k ∈ subscription_attribute_keys → desired_value p k = map_index attrs k) →
  GetChangedSubAttributes p attrs = ∅.
Proof.
  intros Hagree. apply map_eq. intros k. rewrite lookup_empty.
  apply GetChangedSubAttributes_None.
  destruct (decide (k ∈ subscription_attribute_keys)) as [Hk|Hk]; [right|left]; auto.
Qed.

(** The observed value of an attribute once the changed attributes have
    been written over the observed map. *)
Lemma map_index_after_update p attrs k :
  map_index (GetChangedSubAttributes p attrs ∪ attrs) k =
  if decide (k ∈ subscription_attribute_keys) then desired_value p k
  else map_index attrs k.
Proof.
  unfold map_index at 1.
  destruct (GetChangedSubAttributes p attrs !! k) as [v|] eqn:E.
  - rewrite (lookup_union_Some_l _ _ _ v) by exact E.
    apply GetChangedSubAttributes_lookup in E as (Hk & -> & _).
    by rewrite decide_True.
  - rewrite lookup_union_r by exact E.
    apply GetChangedSubAttributes_None in E.
    case_decide as Hk; [|reflexivity].
    destruct E as [Hout|Heq]; [by destruct Hout|]. by rewrite Heq.
Qed.

(** X1: writing the changed attributes over the observed attributes gives
    a map the parameters are up to date with and against which nothing is
    left to change; entries of the observed map under other keys are as
    before. *)
Theorem applying_changed_attributes_converges :
  ∀ (p : SNSSubscriptionParameters) (attrs : gmap string string),
    let updated := GetChangedSubAttributes p attrs ∪ attrs in
    IsSNSSubscriptionAttributesUpToDate p updated = true ∧
    GetChangedSubAttributes p updated = ∅ ∧
    (∀ k, k ∉ subscription_attribute_keys → updated !! k = attrs !! k).
Proof.
  intros p attrs updated. subst updated.
  assert (∀ k, k ∈ subscription_attribute_keys →
            desired_value p k = map_index (GetChangedSubAttributes p attrs ∪ attrs) k) as Hagree.
  { intros k Hk. rewrite map_index_after_update. by rewrite decide_True. }
  split; [by apply IsSNSSubscriptionAttributesUpToDate_spec|].
  split; [by apply no_changes_when_agree|].
  intros k Hk. apply lookup_union_r, GetChangedSubAttributes_None. by left.
Qed.

(** X2: the diff and the up-to-date check read nothing but the four
    desired values (a nil field counting as the empty string) and the four
    observed values (a missing key counting as the empty string): two
    parameter values and two observed maps that agree on these give the
    same diff and the same answer. *)
Theorem diff_reads_only_the_four_values :
  ∀ (p p' : SNSSubscriptionParameters) (attrs attrs' : gmap string string),
    (∀ k, k ∈ subscription_attribute_keys → desired_value p k = desired_value p' k) →
    (∀ k, k ∈ subscription_attribute_keys → map_index attrs k = map_index attrs' k) →
    GetChangedSubAttributes p attrs = GetChangedSubAttributes p' attrs' ∧
    IsSNSSubscriptionAttributesUpToDate p attrs =
      IsSNSSubscriptionAttributesUpToDate p' attrs'.
Proof.
  intros p p' attrs attrs' Hp Hattrs. split.
  - apply map_eq. intros k. apply option_eq. intros v.
    rewrite !GetChangedSubAttributes_lookup.
    split; intros (Hk & -> & Hne); (split; [exact Hk|]).
    + rewrite <- (Hp k Hk), <- (Hattrs k Hk). by split.
    + rewrite (Hp k Hk), (Hattrs k Hk). by split.
  - apply eq_true_iff_eq. rewrite !IsSNSSubscriptionAttributesUpToDate_spec.
    split; intros H k Hk.
    + rewrite <- (Hp k Hk), <- (Hattrs k Hk). by apply H.
    + rewrite (Hp k Hk), (Hattrs k Hk). by apply H.
Qed.

Lemma spec_field_late_initialized conv p attrs k :
  k ∈ subscription_attribute_keys →
  spec_field (LateInitializeSubscription conv p attrs) k =
  LateInitializeStringPtr (spec_field p k) (conv (map_index attrs k)).
Proof.
  unfold subscription_attribute_keys. rewrite !elem_of_cons, elem_of_nil.
  intros [->|[->|[->|[->|[]]]]]; reflexivity.
Qed.

(** X3: when the conversion [awsclients.String] gives a pointer that reads
    back as the string it was given, the diff taken after late
    initialization from the same observed attributes binds [k] to [v]
    exactly when the diff taken before does and the user had set the field
    of [k] to [v]: late initialization removes the entries of the fields
    left nil and no others. *)
Theorem late_initialization_clears_unset_fields_from_diff :
  ∀ (awsclients_String : string → option string)
    (p : SNSSubscriptionParameters) (attrs : gmap string string),
    (∀ s, StringValue (awsclients_String s) = s) →
    ∀ k v,
      GetChangedSubAttributes (LateInitializeSubscription awsclients_String p attrs) attrs
        !! k = Some v ↔
      GetChangedSubAttributes p attrs !! k = Some v ∧ spec_field p k = Some v.
Proof.
  intros conv p attrs Hconv k v.
  rewrite !GetChangedSubAttributes_lookup, !desired_value_spec_field.
  split.
  - intros (Hk & -> & Hne).
    rewrite spec_field_late_initialized in * by exact Hk.
    destruct (spec_field p k) as [s|]; simpl in *.
    + done.
    + by rewrite Hconv in Hne.
  - intros ((Hk & _ & Hne) & Hset).
    rewrite spec_field_late_initialized by exact Hk.
    rewrite Hset in *. simpl in *. done.
Qed.

(** X4: late initialization is idempotent: running it again with the same
    observed attributes changes nothing, whatever [awsclients.String]
    computes. *)
Theorem late_initialization_is_idempotent :
  ∀ (awsclients_String : string → option string)
    (p : SNSSubscriptionParameters) (attrs : gmap string string),
    LateInitializeSubscription awsclients_String
      (LateInitializeSubscription awsclients_String p attrs) attrs =
    LateInitializeSubscription awsclients_String p attrs.
Proof.
  intros conv [topic protocol endpoint delivery filter_ raw redrive] attrs.
  unfold LateInitializeSubscription, set_DeliveryPolicy, set_FilterPolicy,
    set_RawMessageDelivery, set_RedrivePolicy. simpl.
  f_equal.
  - destruct delivery; [done|]. by destruct (conv _).
  - destruct filter_; [done|]. by destruct (conv _).
  - destruct raw; [done|]. by destruct (conv _).
  - destruct redrive; [done|]. by destruct (conv _).
Qed.

Lemma ParseBool_true s : ParseBool s = Some true ↔ In s true_spellings.
Proof.
  unfold ParseBool, true_spellings.
  destruct (existsb (String.eqb s) _) eqn:E.
  - apply existsb_exists in E as (x & Hin & ->%String.eqb_eq). done.
  - split.
    + destruct (existsb (String.eqb s) ["0"; "f"; "F"; "false"; "FALSE"; "False"]);
        intros H; discriminate H.
    + intros Hin. assert (existsb (String.eqb s) ["1"; "t"; "T"; "true"; "TRUE"; "True"] = true)
        as E' by (apply existsb_exists; exists s; split; [exact Hin | apply String.eqb_refl]).
      rewrite E' in E. discriminate E.
Qed.

Lemma spellings_disjoint s : In s true_spellings → In s false_spellings → False.
Proof.
  unfold true_spellings, false_spellings. simpl.
  intros [<-|[<-|[<-|[<-|[<-|[<-|[]]]]]]];
    intros [H|[H|[H|[H|[H|[H|[]]]]]]]; discriminate H.
Qed.

Lemma ParseBool_false s : ParseBool s = Some false ↔ In s false_spellings.
Proof.
  split.
  - unfold ParseBool, false_spellings.
    destruct (existsb (String.eqb s) _); [intros H; discriminate H|].
    destruct (existsb (String.eqb s) _) eqn:E; [|intros H; discriminate H].
    intros _.
    apply existsb_exists in E as (x & Hin & ->%String.eqb_eq). done.
  - intros Hin. unfold ParseBool.
    destruct (existsb (String.eqb s) ["1"; "t"; "T"; "true"; "TRUE"; "True"]) eqn:E.
    + apply existsb_exists in E as (x & Hx & ->%String.eqb_eq).
      destruct (spellings_disjoint x Hx Hin).
    + assert (existsb (String.eqb s) ["0"; "f"; "F"; "false"; "FALSE"; "False"] = true)
        as E' by (apply existsb_exists; exists s; split; [exact Hin | apply String.eqb_refl]).
      by rewrite E'.
Qed.

(** X5: when the two named confirmation statuses are distinct and not the
    empty string, the observed [Status] tells how the PendingConfirmation
    attribute reads: it is the pending status exactly for the six
    spellings of true, the successful status exactly for the six
    spellings of false, and the empty status exactly for every other
    text, the missing attribute included. *)
Theorem observed_status_tells_the_spelling :
  ∀ (ConfirmationPending ConfirmationSuccessful : ConfirmationStatus)
    (attr : gmap string string),
    ConfirmationPending ≠ "" → ConfirmationSuccessful ≠ "" →
    ConfirmationPending ≠ ConfirmationSuccessful →
    let o := GenerateSubscriptionObservation ConfirmationPending ConfirmationSuccessful attr in
    let text := map_index attr SubscriptionPendingConfirmation in
    (Status o = Some ConfirmationPending ↔ In text true_spellings) ∧
    (Status o = Some ConfirmationSuccessful ↔ In text false_spellings) ∧
    (Status o = Some "" ↔ ¬ In text true_spellings ∧ ¬ In text false_spellings).
Proof.
  intros pending successful attr Hp Hs Hps o text. subst o text.
  unfold GenerateSubscriptionObservation. cbn [Status].
  rewrite <- ParseBool_true, <- ParseBool_false.
  destruct (ParseBool (map_index attr SubscriptionPendingConfirmation)) as [[|]|];
    repeat split; try discriminate; try congruence;
    intros H; try (destruct H; congruence); try (injection H; congruence).
Qed.

End SNSFurther.

(** ** Wrapped errors *)

Section WrappedErrors.
Import Go.

(** X6: an error that went through [errors.Wrap] is never recognized as
    not-found, by either recognizer and whatever it wraps: the type
    assertion looks at the wrapper, which is no AWS SDK error. *)
Theorem wrapped_error_is_never_not_found :
  ∀ (ErrCodeNotFoundException : string) (err : option error) (message : string),
    SNS.IsSubscriptionNotFound ErrCodeNotFoundException (Wrap err message) = false ∧
    APIMapping.IsNotFound (Wrap err message) = false.
Proof.
  intros code [e|] message; split; reflexivity.
Qed.

End WrappedErrors.

(** ** Authorizer: listing, naming and re-observing *)

Section AuthorizerFurther.
Import Go Runtime Authorizer.

(** What [filterList] returns, in one equation. *)
Lemma filterList_eq (σ : store) (cr : Authorizer.Authorizer) (list : loc)
    (l : GetAuthorizersOutput) :
  σ !! list = Some l →
  filterList σ cr list =
  Some (<[fresh (dom σ) :=
            {| Items := filter (λ a, GetExternalName (Annotations cr) = StringValue (Name a))
                               (Items l);
               NextToken := None |}]> σ,
        fresh (dom σ)).
Proof.
  intros Hl. unfold filterList. rewrite Hl. by rewrite filterList_loop.
Qed.

Lemma filter_twice {A} (P : A → Prop) `{!∀ x, Decision (P x)} (l : list A) :
  filter P (filter P l) = filter P l.
Proof.
  induction l as [|x l IH]; [done|].
  destruct (decide (P x)) as [Hx|Hx].
  - rewrite (filter_cons_True P x l Hx), (filter_cons_True P x _ Hx). by rewrite IH.
  - by rewrite (filter_cons_False P x l Hx).
Qed.

(** X7: filtering is idempotent: [filterList] run on the output it
    returned allocates another output that holds the same items. *)
Theorem filterList_is_idempotent :
  ∀ (σ : store) (cr : Authorizer.Authorizer) (list : loc) (l : GetAuthorizersOutput),
    σ !! list = Some l →
    ∃ σ' res σ'' res',
      filterList σ cr list = Some (σ', res) ∧
      filterList σ' cr res = Some (σ'', res') ∧
      res' ≠ res ∧
      σ'' !! res' = σ' !! res ∧
      σ'' !! res = σ' !! res.
Proof.
  intros σ cr list l Hl.
  pose proof (filterList_eq σ cr list l Hl) as Hfirst.
  set (res := fresh (dom σ)) in *.
  set (out := {| Items := filter _ (Items l); NextToken := None |}) in *.
  set (σ' := <[res := out]> σ) in *.
  assert (σ' !! res = Some out) as Hres by apply lookup_insert_eq.
  assert (fresh (dom σ') ≠ res) as Hne.
  { intros Heq. apply (is_fresh (dom σ')). rewrite Heq.
    apply elem_of_dom. by exists out. }
  eexists σ', res, _, (fresh (dom σ')).
  split; [exact Hfirst|].
  split; [exact (filterList_eq σ' cr res out Hres)|].
  split; [exact Hne|].
  split.
  - rewrite lookup_insert_eq, Hres. subst out. cbn [Items]. by rewrite filter_twice.
  - by rewrite lookup_insert_ne.
Qed.

(** X8: a resource without the external-name annotation selects the
    unnamed items: with the annotation missing, the items kept are exactly
    those whose [Name] is nil or points at the empty string. *)
Theorem filterList_without_external_name :
  ∀ (σ : store) (cr : Authorizer.Authorizer) (list : loc) (l : GetAuthorizersOutput),
    σ !! list = Some l →
    Annotations cr !! AnnotationKeyExternalName = None →
    ∃ σ' res out,
      filterList σ cr list = Some (σ', res) ∧
      σ' !! res = Some out ∧
      Items out = filter (λ a, Name a = None ∨ Name a = Some "") (Items l).
Proof.
  intros σ cr list l Hl Hmissing.
  rewrite (filterList_eq σ cr list l Hl).
  eexists _, _, _. split; [reflexivity|]. split; [apply lookup_insert_eq|].
  cbn [Items]. apply list_filter_iff. intros a.
  unfold GetExternalName, map_index. rewrite Hmissing. simpl.
  destruct (Name a) as [n|]; simpl.
  - split; [intros <-; by right | intros [[=]|[= ->]]; done].
  - split; [by left | done].
Qed.


(** Every condition of the new condition's type is [Equal] to it after
    [SetCondition]. *)
Lemma SetCondition_same_type_Equal (conditions : list Condition) (new c : Condition) :
  c ∈ SetCondition conditions new → Type_ c = Type_ new → Equal c new = true.
Proof.
  unfold SetCondition. intros Hin Hty.
  assert (c ∈ map (λ existing,
                     if negb (String.eqb (Type_ existing) (Type_ new)) then existing
                     else if Equal existing new then existing else new) conditions
          ∨ c = new) as [Hmap| ->]; [| |apply Equal_refl].
  { destruct (existsb _ conditions); [by left|].
    apply elem_of_app in Hin as [?|Hlast]; [by left|].
    right. by apply list_elem_of_singleton in Hlast. }
  apply list_elem_of_fmap in Hmap as (existing & -> & _).
  destruct (String.eqb_spec (Type_ existing) (Type_ new)) as [_|Hne]; simpl in *.
  - destruct (Equal existing new) eqn:E; [exact E | apply Equal_refl].
  - by destruct Hne.
Qed.

(** Setting a condition that every condition of its type is already
    [Equal] to, one such condition being there, changes nothing. *)
Lemma SetCondition_noop (conditions : list Condition) (new : Condition) :
  (∀ c, c ∈ conditions → Type_ c = Type_ new → Equal c new = true) →
  (∃ c, c ∈ conditions ∧ Type_ c = Type_ new) →
  SetCondition conditions new = conditions.
Proof.
  intros Hall (c0 & Hin0 & Hty0). unfold SetCondition.
  assert (existsb (λ existing, String.eqb (Type_ existing) (Type_ new)) conditions = true)
    as ->.
  { apply existsb_exists. exists c0. split; [by apply list_elem_of_In|].
    by apply String.eqb_eq. }
  clear c0 Hin0 Hty0.
  induction conditions as [|c rest IH]; [done|]. simpl.
  rewrite IH by (intros c' Hin; apply Hall; by apply list_elem_of_further).
  destruct (String.eqb_spec (Type_ c) (Type_ new)) as [Heq|_]; simpl; [|done].
  by rewrite (Hall c (list_elem_of_here _ _) Heq).
Qed.

Lemma Equal_same_fields (c new new' : Condition) :
  Equal c new = true → Equal new new' = true → Equal c new' = true.
Proof.
  unfold Equal. rewrite !andb_true_iff, !String.eqb_eq.
  intros [[[-> ->] ->] ->] [[[-> ->] ->] ->]. done.
Qed.

(** X10: observing again changes nothing: after a successful
    [postObserve], another successful [postObserve] at any later clock
    reading returns the resource as it is, so the transition time of the
    Available condition is the one of the first observation. *)
Theorem postObserve_again_changes_nothing :
  ∀ (now now' : Time) (cr : Authorizer.Authorizer) (obs obs' : ExternalObservation),
    let cr1 := (postObserve now cr obs None).1.1 in
    postObserve now' cr1 obs' None = (cr1, obs', None).
Proof.
  intros now now' cr obs obs' cr1. subst cr1.
  destruct cr as [annotations apiid authid conditions].
  unfold postObserve, cr_SetConditions. cbn. do 3 f_equal.
  assert (Equal (Available now) (Available now') = true) as Hsame by reflexivity.
  apply SetCondition_noop.
  - intros c Hin Hty.
    apply (Equal_same_fields c (Available now) (Available now')); [|exact Hsame].
    by apply (SetCondition_same_type_Equal conditions).
  - destruct (SetCondition_holds conditions (Available now)) as (c & Hin & Heq).
    exists c. split; [exact Hin|].
    unfold Equal in Heq. rewrite !andb_true_iff, !String.eqb_eq in Heq.
    by destruct Heq as [[[-> _] _] _].
Qed.

End AuthorizerFurther.

(** ** APIMapping: from the observed mapping to the requests *)

Section APIMappingFurther.
Import Go APIMapping.

Lemma GenerateAPIMapping_cons (elem : ApiMapping) (rest : list ApiMapping)
    (nt : option string) :
  let cr := GenerateAPIMapping {| Items := elem :: rest; NextToken := nt |} in
  APIMappingKey (ForProvider cr) = ApiMappingKey elem ∧
  APIMappingID (AtProvider cr) = ApiMappingId elem.
Proof.
  destruct elem as [apiId mappingId key stage].
  unfold GenerateAPIMapping, GenerateAPIMapping_body. simpl.
  destruct apiId, mappingId, key, stage; done.
Qed.

(** X11: with hooks that leave [ApiMappingKey] of the create request and
    [ApiMappingId] of the delete request as they find them, the create
    request carries the mapping key of the resource and the delete request
    its observed mapping id, nil when the resource has none; for the
    resource [GenerateAPIMapping] builds from a listing these are the key
    and the id of the listing's first mapping. *)
Theorem requests_carry_the_observed_mapping :
  ∀ (preCreate postCreate : APIMapping.APIMapping → CreateApiMappingInput → CreateApiMappingInput)
    (preDelete postDelete : APIMapping.APIMapping → DeleteApiMappingInput → DeleteApiMappingInput),
    (∀ cr obj, cmi_ApiMappingKey (preCreate cr obj) = cmi_ApiMappingKey obj) →
    (∀ cr obj, cmi_ApiMappingKey (postCreate cr obj) = cmi_ApiMappingKey obj) →
    (∀ cr obj, dmi_ApiMappingId (preDelete cr obj) = dmi_ApiMappingId obj) →
    (∀ cr obj, dmi_ApiMappingId (postDelete cr obj) = dmi_ApiMappingId obj) →
    (∀ cr,
       cmi_ApiMappingKey (GenerateCreateApiMappingInput preCreate postCreate cr) =
         APIMappingKey (ForProvider cr) ∧
       dmi_ApiMappingId (GenerateDeleteApiMappingInput preDelete postDelete cr) =
         APIMappingID (AtProvider cr)) ∧
    (∀ elem rest nt,
       let cr := GenerateAPIMapping {| Items := elem :: rest; NextToken := nt |} in
       cmi_ApiMappingKey (GenerateCreateApiMappingInput preCreate postCreate cr) =
         ApiMappingKey elem ∧
       dmi_ApiMappingId (GenerateDeleteApiMappingInput preDelete postDelete cr) =
         ApiMappingId elem).
Proof.
  intros preC postC preD postD HpreC HpostC HpreD HpostD.
  assert (∀ cr,
            cmi_ApiMappingKey (GenerateCreateApiMappingInput preC postC cr) =
              APIMappingKey (ForProvider cr) ∧
            dmi_ApiMappingId (GenerateDeleteApiMappingInput preD postD cr) =
              APIMappingID (AtProvider cr)) as Hcarry.
  { intros cr. unfold GenerateCreateApiMappingInput, GenerateDeleteApiMappingInput.
    rewrite HpostC, HpostD. split.
    - destruct (APIMappingKey (ForProvider cr)); [reflexivity|]. by rewrite HpreC.
    - destruct (APIMappingID (AtProvider cr)); [reflexivity|]. by rewrite HpreD. }
  split; [exact Hcarry|].
  intros elem rest nt cr.
  destruct (Hcarry cr) as [-> ->]. apply GenerateAPIMapping_cons.
Qed.

End APIMappingFurther.

(** ** The test file's tag modifier *)

Section TagsFurther.
Import Go NodeGroup.

(** Copying a map into the tags, entry by entry, lets the copied map win. *)
Lemma copy_tags_union (tags tagMap : gmap string string) :
  copy_tags tags tagMap = tagMap ∪ tags.
Proof.
  unfold copy_tags.
  apply (map_fold_weak_ind (λ r m, r = m ∪ tags)).
  - by rewrite (left_id ∅ (∪)).
  - intros k v m r _ ->. by rewrite insert_union_l.
Qed.

(** Go visits the entries of [tagMap] in no fixed order; every order
    copies the same entries. *)
Lemma copy_tags_any_order (tags tagMap : gmap string string)
    (order : list (string * string)) :
  order ≡ₚ map_to_list tagMap →
  fold_left (λ tags kv, <[kv.1 := kv.2]> tags) order tags = copy_tags tags tagMap.
Proof.
  intros Hperm. rewrite copy_tags_union.
  assert (NoDup order.*1) as Hnodup.
  { rewrite Hperm. apply NoDup_fst_map_to_list. }
  rewrite <- (list_to_map_to_list tagMap).
  rewrite <- (list_to_map_proper order (map_to_list tagMap)) by done.
  clear Hperm. revert tags.
  induction order as [|[k v] order IH]; intros tags.
  - simpl. by rewrite (left_id ∅ (∪)).
  - apply NoDup_cons in Hnodup as [Hk Hnodup]. simpl in Hk.
    cbn [fold_left fst snd list_to_map foldr uncurry].
    rewrite IH by done.
    rewrite <- insert_union_l, <- insert_union_r; [done|].
    by apply not_elem_of_list_to_map_1.
Qed.

Lemma copied_tags_lookup (tagMaps : list (gmap string string))
    (tags : gmap string string) (k : string) :
  fold_left copy_tags tagMaps tags !! k =
  fold_left (λ found tagMap, match tagMap !! k with Some v => Some v | None => found end)
            tagMaps (tags !! k).
Proof.
  revert tags. induction tagMaps as [|m rest IH]; intros tags; [done|]. simpl.
  rewrite IH, copy_tags_union. f_equal.
  destruct (m !! k) as [v|] eqn:E.
  - by apply lookup_union_Some_l.
  - by apply lookup_union_r.
Qed.

(** X12: [withTags] lets the last map win: the tags it sets bind a key to
    the value of the last of the given maps that binds it, and to nothing
    when none does; the tags the node group had before are dropped and its
    other fields are kept. *)
Theorem withTags_last_map_wins :
  ∀ (tagMaps : list (gmap string string)) (r : NodeGroup.NodeGroup),
    (∀ k, Tags (NodeGroup.ForProvider (withTags tagMaps r)) !! k = last_binding tagMaps k) ∧
    (∀ m k, Tags (NodeGroup.ForProvider (withTags (tagMaps ++ [m]) r)) !! k =
            match m !! k with
            | Some v => Some v
            | None => Tags (NodeGroup.ForProvider (withTags tagMaps r)) !! k
            end) ∧
    Version (NodeGroup.ForProvider (withTags tagMaps r)) = Version (NodeGroup.ForProvider r) ∧
    DesiredSize (NodeGroup.ForProvider (withTags tagMaps r)) =
      DesiredSize (NodeGroup.ForProvider r) ∧
    ProviderReference (withTags tagMaps r) = ProviderReference r ∧
    AtProviderStatus (withTags tagMaps r) = AtProviderStatus r ∧
    NodeGroup.Conditions (withTags tagMaps r) = NodeGroup.Conditions r.
Proof.
  intros tagMaps r. split; [|split; [|done]].
  - intros k. unfold withTags, last_binding. cbn [NodeGroup.ForProvider Tags].
    by rewrite copied_tags_lookup, lookup_empty.
  - intros m k. unfold withTags. cbn [NodeGroup.ForProvider Tags].
    rewrite !copied_tags_lookup, fold_left_app. reflexivity.
Qed.

End TagsFurther.

(** ** The conditional statements of this part at concrete inputs *)

Lemma sample_desired_values_agree (k : string) :
  k ∈ subscription_attribute_keys →
  desired_value params_example k = desired_value params_example' k.
Proof.
  unfold subscription_attribute_keys. rewrite !elem_of_cons, elem_of_nil.
  intros [->|[->|[->|[->|[]]]]]; reflexivity.
Qed.

Lemma sample_observed_values_agree (k : string) :
  k ∈ subscription_attribute_keys →
  Go.map_index attrs_example k = Go.map_index attrs_example' k.
Proof.
  unfold subscription_attribute_keys. rewrite !elem_of_cons, elem_of_nil.
  intros [->|[->|[->|[->|[]]]]]; vm_compute; reflexivity.
Qed.

Lemma awsclients_String_example_reads_back (s : string) :
  Go.StringValue (awsclients_String_example s) = s.
Proof.
  unfold awsclients_String_example.
  by destruct (String.eqb_spec s "") as [->|_].
Qed.

(** Two specs that differ in topic, protocol, endpoint and in nil against
    empty, observed through two maps that differ in the owner and in
    missing against empty. *)
Lemma diff_reads_only_the_four_values_at_samples :
  SNS.GetChangedSubAttributes params_example attrs_example =
    SNS.GetChangedSubAttributes params_example' attrs_example' ∧
  SNS.IsSNSSubscriptionAttributesUpToDate params_example attrs_example =
    SNS.IsSNSSubscriptionAttributesUpToDate params_example' attrs_example'.
Proof.
  exact (diff_reads_only_the_four_values
           params_example params_example' attrs_example attrs_example'
           sample_desired_values_agree sample_observed_values_agree).
Defined.

(** The sample spec leaves the redrive policy nil while the cloud reports
    one: the entry is in the diff before late initialization and gone
    after it. *)
Lemma late_initialization_clears_unset_fields_at_samples :
  (∀ s, Go.StringValue (awsclients_String_example s) = s) ∧
  (SNS.GetChangedSubAttributes
     (SNS.LateInitializeSubscription awsclients_String_example params_example attrs_example)
     attrs_example !! "RedrivePolicy" = Some "" ↔
   SNS.GetChangedSubAttributes params_example attrs_example !! "RedrivePolicy" = Some "" ∧
   spec_field params_example "RedrivePolicy" = Some "").
Proof.
  split; [exact awsclients_String_example_reads_back|].
  exact (late_initialization_clears_unset_fields_from_diff
           awsclients_String_example params_example attrs_example
           awsclients_String_example_reads_back "RedrivePolicy" "").
Defined.

Lemma observed_status_tells_the_spelling_at_samples :
  let o := SNS.GenerateSubscriptionObservation "ConfirmationPending" "Confirmed" attrs_example in
  let text := Go.map_index attrs_example SNS.SubscriptionPendingConfirmation in
  (SNS.Status o = Some "ConfirmationPending" ↔ In text true_spellings) ∧
  (SNS.Status o = Some "Confirmed" ↔ In text false_spellings) ∧
  (SNS.Status o = Some "" ↔ ¬ In text true_spellings ∧ ¬ In text false_spellings).
Proof.
  apply (observed_status_tells_the_spelling "ConfirmationPending" "Confirmed" attrs_example);
    discriminate.
Defined.

Lemma sample_listing_stored : store_example !! 5%positive = Some listing_example.
Proof. vm_compute. reflexivity. Qed.

Lemma filterList_is_idempotent_at_listing :
  ∃ σ' res σ'' res',
    Authorizer.filterList store_example authorizer_example 5%positive = Some (σ', res) ∧
    Authorizer.filterList σ' authorizer_example res = Some (σ'', res') ∧
    res' ≠ res ∧
    σ'' !! res' = σ' !! res ∧
    σ'' !! res = σ' !! res.
Proof.
  exact (filterList_is_idempotent
           store_example authorizer_example 5%positive listing_example sample_listing_stored).
Defined.

(** Of the four listed authorizers only the one without a name is kept for
    a resource without the annotation. *)
Lemma filterList_without_external_name_at_listing :
  ∃ σ' res out,
    Authorizer.filterList store_example authorizer_unnamed_example 5%positive =
      Some (σ', res) ∧
    σ' !! res = Some out ∧
    Authorizer.Items out = [item_example "b" None].
Proof.
  exact (filterList_without_external_name
           store_example authorizer_unnamed_example 5%positive listing_example
           sample_listing_stored eq_refl).
Defined.


Lemma requests_carry_the_observed_mapping_at_samples :
  let cr := APIMapping.GenerateAPIMapping
              {| APIMapping.Items := [mapping_example]; APIMapping.NextToken := None |} in
  APIMapping.cmi_ApiMappingKey
    (APIMapping.GenerateCreateApiMappingInput preCreate_example postCreate_example cr) = None ∧
  APIMapping.dmi_ApiMappingId
    (APIMapping.GenerateDeleteApiMappingInput preDelete_example postDelete_example cr) =
    Some "m1".
Proof.
  exact (proj2 (requests_carry_the_observed_mapping
                  preCreate_example postCreate_example preDelete_example postDelete_example
                  (λ _ _, eq_refl) (λ _ _, eq_refl) (λ _ _, eq_refl) (λ _ _, eq_refl))
               mapping_example [] None).
Defined.

(** ** Updating the attributes and observing *)

Section UpdateAndObserve.
Import Go SNS.

(** X13: the observation does not depend on the attributes an update
    writes: the observation generated from the observed attributes with
    the changed attributes written over them is the observation generated
    from the observed attributes alone. *)
Theorem observation_unchanged_by_attribute_update :
  ∀ (ConfirmationPending ConfirmationSuccessful : ConfirmationStatus)
    (p : SNSSubscriptionParameters) (attrs : gmap string string),
    GenerateSubscriptionObservation ConfirmationPending ConfirmationSuccessful
      (GetChangedSubAttributes p attrs ∪ attrs) =
    GenerateSubscriptionObservation ConfirmationPending ConfirmationSuccessful attrs.
Proof.
  intros pending successful p attrs.
  unfold GenerateSubscriptionObservation.
  rewrite !map_index_after_update.
  rewrite !decide_False; [reflexivity| | |];
    unfold subscription_attribute_keys; rewrite !elem_of_cons, elem_of_nil;
    intros [H|[H|[H|[H|[]]]]]; discriminate H.
Qed.

End UpdateAndObserve.

(** The expected resource of the AlreadyDeleting case, built as the test
    builds it. *)
Example nodeGroup_of_modifiers (now : Runtime.Time) :
  NodeGroup.nodeGroup_of
    [NodeGroup.withStatus NodeGroupStatusDeleting_example;
     NodeGroup.withConditions [Runtime.Deleting now]] =
  (Delete_example now (failing NodeGroup.errBoom)
     (NodeGroup.withStatus NodeGroupStatusDeleting_example NodeGroup.nodeGroup)).1.
Proof. reflexivity. Qed.
